(** * wiki-quiz-master: the article resolver, the quiz generator and the
      history store, embedded from [src/wikiService.ts] and [src/App.tsx].

    Strings are JavaScript strings restricted to code units below 256
    (Latin-1), carried by [string]; [length] counts code units as
    [String.prototype.length] does.  Platform functions the code calls
    ([new URL], [decodeURIComponent], [axios.get], [Math.random]) are
    parameters of the sections that use them. *)

From Stdlib Require Import Bool Arith ZArith Lia List Ascii String.
From Stdlib Require Import Permutation DecimalString.
Import ListNotations.

Local Open Scope list_scope.
Local Open Scope string_scope.
Local Open Scope nat_scope.

(** ** JavaScript string primitives *)

Module JS.

(** WhiteSpace and LineTerminator code units below 256: TAB, LF, VT, FF, CR,
    SPACE and NBSP.  This is the set of [\s] and of [trim]. *)
Definition isWhiteSpace (c : ascii) : bool :=
  let n := nat_of_ascii c in
  ((9 <=? n) && (n <=? 13)) || (n =? 32) || (n =? 160).

Fixpoint trimStart (s : string) : string :=
  match s with
  | EmptyString => EmptyString
  | String c s' => if isWhiteSpace c then trimStart s' else s
  end.

(** [trimEnd] drops the trailing white space: a character is kept when it
    is not white space or when something is kept after it. *)
Fixpoint trimEnd (s : string) : string :=
  match s with
  | EmptyString => EmptyString
  | String c s' =>
      match trimEnd s' with
      | EmptyString => if isWhiteSpace c then EmptyString else String c EmptyString
      | t => String c t
      end
  end.

Definition trim (s : string) : string := trimEnd (trimStart s).

(** [s.split(sep)] for a separator that matches exactly one code unit
    ([split('\n')], [split(' ')], [split('/')], [split(/[.!?]/)]).  The
    result always has at least one element. *)
Fixpoint split (sep : ascii -> bool) (s : string) : list string :=
  match s with
  | EmptyString => [EmptyString]
  | String c s' =>
      if sep c then EmptyString :: split sep s'
      else match split sep s' with
           | [] => [String c EmptyString]
           | w :: ws => String c w :: ws
           end
  end.

(** [s.split(/\s+/)]: the separators are the maximal runs of white space.
    [inRun] tells that the previous code unit belonged to a separator. *)
Fixpoint splitRuns (sep : ascii -> bool) (inRun : bool) (s : string) : list string :=
  match s with
  | EmptyString => [EmptyString]
  | String c s' =>
      if sep c then
        if inRun then splitRuns sep true s' else EmptyString :: splitRuns sep true s'
      else match splitRuns sep false s' with
           | [] => [String c EmptyString]
           | w :: ws => String c w :: ws
           end
  end.

Definition splitWhiteSpace (s : string) : list string := splitRuns isWhiteSpace false s.

(** [toLowerCase] on Latin-1: A-Z, and U+00C0-U+00DE without U+00D7. *)
Definition toLowerCaseChar (c : ascii) : ascii :=
  let n := nat_of_ascii c in
  if ((65 <=? n) && (n <=? 90))
     || ((192 <=? n) && (n <=? 222) && negb (n =? 215))
  then ascii_of_nat (n + 32) else c.

Fixpoint toLowerCase (s : string) : string :=
  match s with
  | EmptyString => EmptyString
  | String c s' => String (toLowerCaseChar c) (toLowerCase s')
  end.

Fixpoint startsWith (s p : string) : bool :=
  match p, s with
  | EmptyString, _ => true
  | String _ _, EmptyString => false
  | String a p', String b s' => Ascii.eqb a b && startsWith s' p'
  end.

(** [s.indexOf(t)] as the number of code units before the first match. *)
Fixpoint indexOf (s t : string) : option nat :=
  if startsWith s t then Some 0
  else match s with
       | EmptyString => None
       | String _ s' => option_map S (indexOf s' t)
       end.

Definition includes (s t : string) : bool :=
  match indexOf s t with Some _ => true | None => false end.

Fixpoint drop (n : nat) (s : string) : string :=
  match n, s with
  | 0, _ => s
  | S _, EmptyString => EmptyString
  | S n', String _ s' => drop n' s'
  end.

Fixpoint take (n : nat) (s : string) : string :=
  match n, s with
  | 0, _ => EmptyString
  | S _, EmptyString => EmptyString
  | S n', String c s' => String c (take n' s')
  end.

(** [s.replace(t, r)] with a string pattern [t] and a replacement [r] free
    of [$]: the first occurrence of [t] is replaced, and [s] is unchanged
    when there is none. *)
Fixpoint replace (s t r : string) : string :=
  if startsWith s t then r ++ drop (length t) s
  else match s with
       | EmptyString => EmptyString
       | String c s' => String c (replace s' t r)
       end.

(** [s.replace(/[,.;]$/, '')]: without the [m] flag [$] is the end of the
    input, so at most the last code unit goes. *)
Definition isTrailingPunct (c : ascii) : bool :=
  Ascii.eqb c "," || Ascii.eqb c "." || Ascii.eqb c ";"%char.

Fixpoint stripTrailingPunct (s : string) : string :=
  match s with
  | EmptyString => EmptyString
  | String c EmptyString => if isTrailingPunct c then EmptyString else s
  | String c s' => String c (stripTrailingPunct s')
  end.

(** [/^[A-Z]/.test(s)] *)
Definition testLeadingUpper (s : string) : bool :=
  match s with
  | EmptyString => false
  | String c _ => let n := nat_of_ascii c in (65 <=? n) && (n <=? 90)
  end.

(** The last code unit, when there is one. *)
Fixpoint lastChar (s : string) : option ascii :=
  match s with
  | EmptyString => None
  | String c EmptyString => Some c
  | String _ s' => lastChar s'
  end.

(** [arr.indexOf(x)] on an array of strings, [-1] when absent. *)
Fixpoint arrayIndexOf (x : string) (a : list string) : Z :=
  match a with
  | [] => (-1)%Z
  | y :: a' =>
      if String.eqb y x then 0%Z
      else let i := arrayIndexOf x a' in
           if (i =? -1)%Z then (-1)%Z else (i + 1)%Z
  end.

(** [arr[i]] for an integer [i]: [undefined] out of range. *)
Definition arrayGet {A : Type} (a : list A) (i : Z) : option A :=
  if (i <? 0)%Z then None else nth_error a (Z.to_nat i).

(** Truthiness of a string that may be [undefined] or [null]. *)
Definition truthy (v : option string) : bool :=
  match v with
  | Some (String _ _) => true
  | _ => false
  end.

(** Every code unit of [s] satisfies [p]. *)
Fixpoint every (p : ascii -> bool) (s : string) : bool :=
  match s with
  | EmptyString => true
  | String c s' => p c && every p s'
  end.

(** [String(n)] for a non-negative integer. *)
Definition numberToString (n : nat) : string :=
  NilEmpty.string_of_uint (Nat.to_uint n).

End JS.

Import JS.

(** ** Article resolver ([wikiService.ts], [parseWikiUrl] and
    [fetchWikiArticle]) *)

(** What [parseWikiUrl] reads of a [URL] object.  [searchParams] lists the
    decoded name-value pairs in the order of the query string. *)
Record URL := mkURL {
  hostname : string;
  pathname : string;
  searchParams : list (string * string)
}.

(** [URLSearchParams.prototype.get]: the first value under [name], else
    [null]. *)
Fixpoint searchParams_get (ps : list (string * string)) (name : string) : option string :=
  match ps with
  | [] => None
  | (k, v) :: ps' => if String.eqb k name then Some v else searchParams_get ps' name
  end.

(** A property of a JSON object that may be absent, a boolean or a string
    (the API's [missing] flag). *)
Inductive JSValue :=
| JSUndefined
| JSBoolean (b : bool)
| JSString (s : string).

Definition toBoolean (v : JSValue) : bool :=
  match v with
  | JSUndefined => false
  | JSBoolean b => b
  | JSString s => negb (String.eqb s EmptyString)
  end.

(** One entry of [response.data.query.pages]. *)
Record Page := mkPage {
  page_title : string;
  page_extract : string;
  page_missing : JSValue
}.

(** The [pages] object: its own properties in [Object.keys] order. *)
Definition Pages := list (string * Page).

Definition objectKeys (o : Pages) : list string := map fst o.

Fixpoint objectGet (o : Pages) (k : string) : option Page :=
  match o with
  | [] => None
  | (k', p) :: o' => if String.eqb k' k then Some p else objectGet o' k
  end.

(** The [params] object of the request. *)
Record Params := mkParams {
  action : string;
  format : string;
  prop : string;
  exintro : bool;
  explaintext : bool;
  titles : string;
  origin : string
}.

(** The object [fetchWikiArticle] resolves to. *)
Record Article := mkArticle {
  title : string;
  extract : string;
  url : string
}.

(** How the promise of [fetchWikiArticle] settles. *)
Inductive FetchError :=
| ArticleNotFound        (* new Error('Article not found') *)
| TypeError              (* property read on undefined *)
| RequestFailed.         (* axios.get rejected *)

Inductive Outcome (A : Type) :=
| Returned (a : A)
| Thrown (e : FetchError).
Arguments Returned {A} a.
Arguments Thrown {A} e.

Definition hexDigit (n : nat) : ascii :=
  if n <? 10 then ascii_of_nat (48 + n) else ascii_of_nat (55 + n).

Definition percentByte (b : nat) : string :=
  String "%" (String (hexDigit (b / 16)) (String (hexDigit (b mod 16)) EmptyString)).

(** The characters [encodeURIComponent] leaves alone: letters, digits and
    [- _ . ! ~ * ' ( )]. *)
Definition isUriUnreserved (c : ascii) : bool :=
  let n := nat_of_ascii c in
  ((65 <=? n) && (n <=? 90)) || ((97 <=? n) && (n <=? 122))
  || ((48 <=? n) && (n <=? 57))
  || existsb (Nat.eqb n) [45; 95; 46; 33; 126; 42; 39; 40; 41].

(** [encodeURIComponent] on Latin-1: the UTF-8 bytes of a code unit have one
    byte below 128 and two from there on. *)
Fixpoint encodeURIComponent (s : string) : string :=
  match s with
  | EmptyString => EmptyString
  | String c s' =>
      let n := nat_of_ascii c in
      (if isUriUnreserved c then String c EmptyString
       else if n <? 128 then percentByte n
       else percentByte (192 + n / 64) ++ percentByte (128 + n mod 64))
      ++ encodeURIComponent s'
  end.

Section Resolver.

(** [new URL(url)]: [None] when the constructor throws. *)
Variable newURL : string -> option URL.
(** [decodeURIComponent(s)]: [None] when it throws a [URIError]. *)
Variable decodeURIComponent : string -> option string.
(** [axios.get(endpoint, { params })], seen through
    [response.data.query.pages]: [None] when the promise rejects. *)
Variable axios_get : string -> Params -> option Pages.

Definition parseWikiUrl (url : string) : option string :=
  match newURL url with
  | None => None                                   (* catch (e) *)
  | Some urlObj =>
      if includes (hostname urlObj) "wikipedia.org" then
        let pathParts := split (Ascii.eqb "/") (pathname urlObj) in
        let wikiIndex := arrayIndexOf "wiki" pathParts in
        if negb (wikiIndex =? -1)%Z && truthy (arrayGet pathParts (wikiIndex + 1)%Z) then
          match arrayGet pathParts (wikiIndex + 1)%Z with
          | Some part => decodeURIComponent part   (* a URIError is caught *)
          | None => None
          end
        else
          let titleParam := searchParams_get (searchParams urlObj) "title" in
          if truthy titleParam then titleParam else None
      else None
  end.

(** [parseWikiUrl(titleOrUrl) || titleOrUrl] *)
Definition resolveTitle (titleOrUrl : string) : string :=
  let parsed := parseWikiUrl titleOrUrl in
  if truthy parsed then match parsed with Some t => t | None => titleOrUrl end
  else titleOrUrl.

Definition fetchParams (titleOrUrl : string) : Params :=
  {| action := "query";
     format := "json";
     prop := "extracts";
     exintro := false;
     explaintext := true;
     titles := resolveTitle titleOrUrl;
     origin := "*" |}.

Definition fetchWikiArticle (titleOrUrl : string) : Outcome Article :=
  match axios_get "https://en.wikipedia.org/w/api.php" (fetchParams titleOrUrl) with
  | None => Thrown RequestFailed
  | Some pages =>
      match nth_error (objectKeys pages) 0 with
      | None => Thrown TypeError                   (* pages[undefined].missing *)
      | Some pageId =>
          match objectGet pages pageId with
          | None => Thrown TypeError
          | Some page =>
              if toBoolean (page_missing page) || String.eqb pageId "-1"
              then Thrown ArticleNotFound
              else Returned
                     {| title := page_title page;
                        extract := page_extract page;
                        url := "https://en.wikipedia.org/wiki/"
                               ++ encodeURIComponent (page_title page) |}
          end
      end
  end.

End Resolver.

(** The path segment [parseWikiUrl] decodes: the one after the first
    segment [wiki], when it is there and not empty. *)
Definition wikiSegment (pathname : string) : option string :=
  let pathParts := split (Ascii.eqb "/") pathname in
  let wikiIndex := arrayIndexOf "wiki" pathParts in
  if negb (wikiIndex =? -1)%Z && truthy (arrayGet pathParts (wikiIndex + 1)%Z)
  then arrayGet pathParts (wikiIndex + 1)%Z
  else None.

(** ** Reference instances of the platform functions

    They serve to run the resolver on concrete inputs.  Each one answers
    [Some] only where the platform function gives that very result; outside
    the fragment described it answers [None], and no theorem relies on a
    [None] of these instances to mean that the platform throws. *)

Module Platform.

Definition hexValue (c : ascii) : option nat :=
  let n := nat_of_ascii c in
  if (48 <=? n) && (n <=? 57) then Some (n - 48)
  else if (65 <=? n) && (n <=? 70) then Some (n - 55)
  else if (97 <=? n) && (n <=? 102) then Some (n - 87)
  else None.

Definition hexByte (h l : ascii) : option nat :=
  match hexValue h, hexValue l with
  | Some a, Some b => Some (16 * a + b)
  | _, _ => None
  end.

(** [decodeURIComponent] where every escape yields a code unit below 256:
    [%00]-[%7F], and the two-byte UTF-8 sequences led by [%C2] or [%C3].
    A [%] without two hexadecimal digits, a lone continuation byte and the
    overlong leads [%C0], [%C1] are the platform's [URIError]. *)
Fixpoint decodeURIComponent (s : string) : option string :=
  match s with
  | EmptyString => Some EmptyString
  | String c s1 =>
      if Ascii.eqb c "%" then
        match s1 with
        | String h1 (String l1 s2) =>
            match hexByte h1 l1 with
            | None => None
            | Some b =>
                if b <? 128 then option_map (String (ascii_of_nat b)) (decodeURIComponent s2)
                else if (b =? 194) || (b =? 195) then
                  match s2 with
                  | String p (String h2 (String l2 s3)) =>
                      match hexByte h2 l2 with
                      | Some b2 =>
                          if Ascii.eqb p "%" && (128 <=? b2) && (b2 <? 192)
                          then option_map
                                 (String (ascii_of_nat ((b - 192) * 64 + (b2 - 128))))
                                 (decodeURIComponent s3)
                          else None
                      | None => None
                      end
                  | _ => None
                  end
                else None
            end
        | _ => None
        end
      else option_map (String c) (decodeURIComponent s1)
  end.

(** The longest prefix free of [stop] characters, and the rest. *)
Fixpoint span (stop : ascii -> bool) (s : string) : string * string :=
  match s with
  | EmptyString => (EmptyString, EmptyString)
  | String c s' =>
      if stop c then (EmptyString, s)
      else let (a, b) := span stop s' in (String c a, b)
  end.

Definition isLowerAlpha (c : ascii) : bool :=
  let n := nat_of_ascii c in (97 <=? n) && (n <=? 122).
Definition isDigit (c : ascii) : bool :=
  let n := nat_of_ascii c in (48 <=? n) && (n <=? 57).
Definition isAlnum (c : ascii) : bool :=
  let n := nat_of_ascii c in
  isLowerAlpha c || isDigit c || ((65 <=? n) && (n <=? 90)).
Definition oneOf (cs : string) (c : ascii) : bool :=
  existsb (Ascii.eqb c) (list_ascii_of_string cs).

(** Host names kept: non-empty lower-case labels of letters and digits,
    the last one of letters only (so neither an IPv4 number nor punycode). *)
Definition hostOK (h : string) : bool :=
  let labels := split (Ascii.eqb ".") h in
  forallb (fun l => negb (String.eqb l EmptyString)
                    && every (fun c => isLowerAlpha c || isDigit c) l) labels
  && every isLowerAlpha (last labels EmptyString).

(** Paths kept: code units the URL parser copies unchanged, and no segment
    that it treats as a dot segment. *)
Definition pathOK (p : string) : bool :=
  every (fun c => isAlnum c || oneOf "/_-(),:%." c) p
  && forallb (fun seg => negb (existsb (String.eqb (toLowerCase seg))
                                 ["."; ".."; "%2e"; ".%2e"; "%2e."; "%2e%2e"]))
       (split (Ascii.eqb "/") p).

(** Queries kept: no escape and no [+], so names and values are read as
    they stand. *)
Definition queryOK (q : string) : bool :=
  every (fun c => isAlnum c || oneOf "_-.=&" c) q.

Definition parsePair (piece : string) : string * string :=
  let (name, rest) := span (Ascii.eqb "=") piece in
  (name, drop 1 rest).

Definition parseQuery (q : string) : list (string * string) :=
  map parsePair (filter (fun piece => negb (String.eqb piece EmptyString)) (split (Ascii.eqb "&") q)).

Definition stripScheme (s : string) : option string :=
  if startsWith s "https://" then Some (drop 8 s)
  else if startsWith s "http://" then Some (drop 7 s)
  else None.

(** [new URL(s)] on strings [http(s)://host/path?query#fragment] made of
    the parts above. *)
Definition newURL (s : string) : option URL :=
  match stripScheme s with
  | None => None
  | Some rest =>
      let (host, afterHost) := span (oneOf "/?#") rest in
      let (path, afterPath) := span (oneOf "?#") afterHost in
      let query := if startsWith afterPath "?"
                   then fst (span (Ascii.eqb "#") (drop 1 afterPath))
                   else EmptyString in
      if hostOK host && pathOK path && queryOK query
      then Some {| hostname := host;
                   pathname := if String.eqb path EmptyString then "/" else path;
                   searchParams := parseQuery query |}
      else None
  end.

End Platform.

(** ** Quiz generator ([wikiService.ts], [generateQuizFromExtract]) *)

Record WikiQuizQuestion := mkQuestion {
  question : string;
  options : list string;
  answer : string
}.

(** The blank that stands for the answer in a question. *)
Definition blank : string := "_______".

Definition isSentenceEnd (c : ascii) : bool :=
  Ascii.eqb c "." || Ascii.eqb c "!" || Ascii.eqb c "?".

Definition isNewline (c : ascii) : bool := Ascii.eqb c "010".

Definition isSpace (c : ascii) : bool := Ascii.eqb c " ".

(** Computations that draw from [Math.random] and may run for ever: the
    state is the number of draws made so far, and [None] says that a
    [while] loop used up its iteration budget. *)
Definition Gen (A : Type) : Type := nat -> option (A * nat).

Definition ret {A : Type} (a : A) : Gen A := fun k => Some (a, k).

Definition bind {A B : Type} (m : Gen A) (f : A -> Gen B) : Gen B :=
  fun k => match m k with
           | Some (a, k') => f a k'
           | None => None
           end.

Definition outOfFuel {A : Type} : Gen A := fun _ => None.

Definition run {A : Type} (m : Gen A) : option A :=
  match m 0 with
  | Some (a, _) => Some a
  | None => None
  end.

Notation "x <- m ;; f" := (bind m (fun x => f))
  (at level 61, m at next level, right associativity).

Section Generator.

(** The source of randomness: draw [k] of [Math.random] is the double
    [(random k mod 2^53) / 2^53], so every draw lies in [0, 1) whatever the
    oracle. *)
Variable random : nat -> Z.

Definition Math_random : Gen Z :=
  fun k => Some ((random k mod 2 ^ 53)%Z, S k).

(** [Math.floor(Math.random() * n)] *)
Definition randomIndex (n : nat) : Gen nat :=
  r <- Math_random ;;
  ret (Z.to_nat (r * Z.of_nat n / 2 ^ 53)).

(** [Math.random() - 0.5 < 0], the verdict of the comparator
    [() => Math.random() - 0.5]. *)
Definition randomComparator : Gen bool :=
  r <- Math_random ;;
  ret (r <? 2 ^ 52)%Z.

(** [arr.sort(() => Math.random() - 0.5)].  The language leaves the
    algorithm of [sort] to the engine; it is an insertion sort here, one
    draw per comparison, which reaches every order of the elements. *)
Fixpoint insertRandom {A : Type} (x : A) (l : list A) : Gen (list A) :=
  match l with
  | [] => ret [x]
  | y :: l' =>
      before <- randomComparator ;;
      if before then ret (x :: y :: l')
      else (l'' <- insertRandom x l' ;; ret (y :: l''))
  end.

Fixpoint sortRandom {A : Type} (l : list A) : Gen (list A) :=
  match l with
  | [] => ret []
  | x :: l' => s <- sortRandom l' ;; insertRandom x s
  end.

(** The words a sentence offers as the answer (lines 71-78). *)
Definition targetWordsOf (title trimmed : string) : list string :=
  let words :=
    filter (fun w =>
              (5 <? length w)
              && negb (includes (toLowerCase w)
                         (hd EmptyString (split isSpace (toLowerCase title))))
              && testLeadingUpper w)
           (split isSpace trimmed) in
  let fallbackWords := filter (fun w => 6 <? length w) (split isSpace trimmed) in
  if 0 <? List.length words then words else fallbackWords.

(** The pool of distractors (line 85). *)
Definition allWordsOf (extract target : string) : list string :=
  filter (fun w => (5 <? length w)
                   && negb (String.eqb (toLowerCase w) (toLowerCase target)))
         (splitWhiteSpace extract).

(** [options.some(o => o.toLowerCase() === fake.toLowerCase())] (line 90) *)
Definition hasOption (options : list string) (fake : string) : bool :=
  existsb (fun o => String.eqb (toLowerCase o) (toLowerCase fake)) options.

(** The loop of lines 88-93; [allWords] is never changed by its body.
    [fuel] is the number of iterations the loop may still make. *)
Fixpoint sampleOptions (fuel : nat) (allWords options : list string)
  : Gen (list string) :=
  if (List.length options <? 4) && (0 <? List.length allWords) then
    match fuel with
    | 0 => outOfFuel
    | S fuel' =>
        i <- randomIndex (List.length allWords) ;;
        let fake := stripTrailingPunct (nth i allWords EmptyString) in
        if negb (hasOption options fake)
        then sampleOptions fuel' allWords (options ++ [fake])%list
        else sampleOptions fuel' allWords options
    end
  else ret options.

(** The loop of lines 96-98; it runs at most [n] times. *)
Fixpoint padOptions (n : nat) (options : list string) : list string :=
  match n with
  | 0 => options
  | S n' =>
      if List.length options <? 4
      then padOptions n'
             (List.app options [String.append "Option " (numberToString (List.length options))])
      else options
  end.

(** The [for] loop over the shuffled pool (lines 66-106). *)
Fixpoint forSentences (fuel : nat) (title extract : string)
    (pool : list string) (quiz : list WikiQuizQuestion)
  : Gen (list WikiQuizQuestion) :=
  match pool with
  | [] => ret quiz
  | sentence :: pool' =>
      if 5 <=? List.length quiz then ret quiz            (* break *)
      else
        let trimmed := trim sentence in
        let targetWords := targetWordsOf title trimmed in
        if 0 <? List.length targetWords then
          i <- randomIndex (List.length targetWords) ;;
          let target := stripTrailingPunct (nth i targetWords EmptyString) in
          let question := replace trimmed target blank in
          let allWords := allWordsOf extract target in
          sampled <- sampleOptions fuel allWords [target] ;;
          let padded := padOptions 4 sampled in
          shuffled <- sortRandom padded ;;
          forSentences fuel title extract pool'
            (quiz ++ [{| question := question; answer := target; options := shuffled |}])%list
        else forSentences fuel title extract pool' quiz
  end.

(** The sentences that may become questions (lines 57 and 61). *)
Definition paragraphsOf (extract : string) : list string :=
  filter (fun p => 100 <? length (trim p)) (split isNewline extract).

Definition poolOf (extract : string) : list string :=
  filter (fun s => (50 <? length (trim s)) && (length (trim s) <? 200))
         (flat_map (fun p => split isSentenceEnd p) (paragraphsOf extract)).

(** [fuel] bounds the iterations of each run of the sampling loop. *)
Definition generateQuizFromExtract (fuel : nat) (title extract : string)
  : Gen (list WikiQuizQuestion) :=
  pool <- sortRandom (poolOf extract) ;;
  forSentences fuel title extract pool [].

(** How one question comes out of one sentence of the pool: a word of the
    sentence is chosen, stripped and masked, the sampling loop returns, and
    the padded options are shuffled. *)
Definition producedFrom (fuel : nat) (title extract sentence : string)
    (q : WikiQuizQuestion) : Prop :=
  exists (w : string) (sampled : list string) (k k' : nat),
    In w (targetWordsOf title (trim sentence))
    /\ answer q = stripTrailingPunct w
    /\ question q = replace (trim sentence) (answer q) blank
    /\ sampleOptions fuel (allWordsOf extract (answer q)) [answer q] k
       = Some (sampled, k')
    /\ Permutation (padOptions 4 sampled) (options q).

End Generator.

(** ** History store ([App.tsx], [saveToHistory]) *)

Module App.

Record QuestionResult := mkResult {
  result_question : string;
  result_answer : string;
  selected : string;
  isCorrect : bool
}.

Record HistoryItem := mkHistoryItem {
  url : string;
  topic : string;
  score : Z;
  total : Z;
  date : string;
  results : list QuestionResult
}.

(** [a.findIndex(p)], [-1] when no element satisfies [p]. *)
Fixpoint findIndex {A : Type} (p : A -> bool) (a : list A) : Z :=
  match a with
  | [] => (-1)%Z
  | x :: a' =>
      if p x then 0%Z
      else let i := findIndex p a' in
           if (i =? -1)%Z then (-1)%Z else (i + 1)%Z
  end.

(** [a.filter((v, i, a) => p(v, i, a))]: [i] is the index of [v] in the
    array [a] that [filter] was called on. *)
Fixpoint filterFrom {A : Type} (p : A -> Z -> list A -> bool) (a : list A)
    (i : Z) (rest : list A) : list A :=
  match rest with
  | [] => []
  | v :: rest' =>
      if p v i a then v :: filterFrom p a (i + 1)%Z rest'
      else filterFrom p a (i + 1)%Z rest'
  end.

Definition filterIndexed {A : Type} (p : A -> Z -> list A -> bool) (a : list A) : list A :=
  filterFrom p a 0%Z a.

(** The component state [saveToHistory] reads and writes: the [history]
    of the render it closes over, and the list kept in [localStorage] under
    [wiki_quiz_history] ([None] before the first write). *)
Record Store := mkStore {
  history : list HistoryItem;
  persisted : option (list HistoryItem)
}.

Definition sameRecord (v t : HistoryItem) : bool :=
  String.eqb (url t) (url v) && String.eqb (date t) (date v).

Definition newHistoryOf (history : list HistoryItem) (item : HistoryItem) : list HistoryItem :=
  filterIndexed (fun v i a => (findIndex (sameRecord v) a =? i)%Z) (item :: history).

(** What identifies a record in the history. *)
Definition recordKey (h : HistoryItem) : string * string := (url h, date h).

Definition saveToHistory (item : HistoryItem) (st : Store) : Store :=
  let newHistory := newHistoryOf (history st) item in
  {| history := newHistory; persisted := Some newHistory |}.

End App.


(** ** Quiz session ([App.tsx], the state of [App] and its handlers)

    The handlers are functions of the state of the render they were created
    in.  Events are taken one at a time: a handler runs on the state that
    the previous event left. *)

Module View.

(** The [useState] cells of [App], and the list kept in [localStorage]. *)
Record Session := mkSession {
  loading : bool;
  inputUrl : string;
  quiz : list WikiQuizQuestion;
  currentIndex : Z;
  score : Z;
  showResult : bool;
  selectedOption : option string;
  isCorrect : option bool;
  history : list App.HistoryItem;
  currentResults : list App.QuestionResult;
  articleTitle : string;
  lastScoreForUrl : option Z;
  localStorage : option (list App.HistoryItem)
}.

(** [history.find(h => h.url.includes(u) || u.includes(h.url))] *)
Definition findExisting (history : list App.HistoryItem) (u : string)
  : option App.HistoryItem :=
  find (fun h => includes (App.url h) u || includes u (App.url h)) history.

(** The effect of lines 37-44: the badge shown for the text of the input. *)
Definition lastScoreEffect (inputUrl : string) (history : list App.HistoryItem)
  : option Z :=
  if truthy (Some inputUrl) then
    match findExisting history inputUrl with
    | Some existing => Some (App.score existing)
    | None => None
    end
  else None.

(** [saveToHistory] on the cells of a session. *)
Definition saveToHistory (item : App.HistoryItem) (st : Session) : Session :=
  let saved := App.saveToHistory item (App.mkStore (history st) (localStorage st)) in
  {| loading := loading st; inputUrl := inputUrl st; quiz := quiz st;
     currentIndex := currentIndex st; score := score st;
     showResult := showResult st; selectedOption := selectedOption st;
     isCorrect := isCorrect st;
     history := App.history saved;
     currentResults := currentResults st; articleTitle := articleTitle st;
     lastScoreForUrl := lastScoreForUrl st;
     localStorage := App.persisted saved |}.

(** What a click on an option does at once (lines 83-98). *)
Inductive Click :=
| Ignored                      (* [if (selectedOption) return] *)
| Threw (st : Session)         (* [quiz[currentIndex]] is undefined *)
| Answered (result : App.QuestionResult) (st : Session).

Definition handleAnswer (chosen : string) (st : Session) : Click :=
  if truthy (selectedOption st) then Ignored
  else
    match arrayGet (quiz st) (currentIndex st) with
    | None =>
        (* [setSelectedOption(option)] was called before the read that throws *)
        Threw
          {| loading := loading st; inputUrl := inputUrl st; quiz := quiz st;
             currentIndex := currentIndex st; score := score st;
             showResult := showResult st;
             selectedOption := Some chosen;
             isCorrect := isCorrect st;
             history := history st; currentResults := currentResults st;
             articleTitle := articleTitle st;
             lastScoreForUrl := lastScoreForUrl st;
             localStorage := localStorage st |}
    | Some q =>
        let correct := String.eqb chosen (answer q) in
        let result := {| App.result_question := question q;
                         App.result_answer := answer q;
                         App.selected := chosen;
                         App.isCorrect := correct |} in
        Answered result
          {| loading := loading st; inputUrl := inputUrl st; quiz := quiz st;
             currentIndex := currentIndex st;
             score := if correct then (score st + 1)%Z else score st;
             showResult := showResult st;
             selectedOption := Some chosen;
             isCorrect := Some correct;
             history := history st;
             currentResults := (currentResults st ++ [result])%list;
             articleTitle := articleTitle st;
             lastScoreForUrl := lastScoreForUrl st;
             localStorage := localStorage st |}
    end.

(** The callback of [setTimeout] (lines 100-119).  [rendered] is the state
    [handleAnswer] ran on, whose cells the callback closes over; [st] is the
    state when the timer fires; [now] is [new Date().toLocaleString()]. *)
Definition afterAnswer (now : string) (result : App.QuestionResult)
    (rendered st : Session) : Session :=
  if (currentIndex rendered <? Z.of_nat (List.length (quiz rendered)) - 1)%Z then
    {| loading := loading st; inputUrl := inputUrl st; quiz := quiz st;
       currentIndex := (currentIndex st + 1)%Z;
       score := score st; showResult := showResult st;
       selectedOption := None;
       isCorrect := None;
       history := history st; currentResults := currentResults st;
       articleTitle := articleTitle st; lastScoreForUrl := lastScoreForUrl st;
       localStorage := localStorage st |}
  else
    let finalScore := (score rendered + (if App.isCorrect result then 1 else 0))%Z in
    let historyItem :=
      {| App.url := inputUrl rendered;
         App.topic := articleTitle rendered;
         App.score := finalScore;
         App.total := Z.of_nat (List.length (quiz rendered));
         App.date := now;
         App.results := (currentResults rendered ++ [result])%list |} in
    let saved := App.saveToHistory historyItem
                   (App.mkStore (history rendered) (localStorage st)) in
    {| loading := loading st;
       inputUrl := EmptyString;
       quiz := quiz st; currentIndex := currentIndex st; score := score st;
       showResult := true;
       selectedOption := selectedOption st; isCorrect := isCorrect st;
       history := App.history saved;
       currentResults := currentResults st; articleTitle := articleTitle st;
       lastScoreForUrl := lastScoreForUrl st;
       localStorage := App.persisted saved |}.

(** A click and the timer it starts, with no other event in between;
    [None] when the click throws. *)
Definition answerQuestion (now chosen : string) (st : Session) : option Session :=
  match handleAnswer chosen st with
  | Ignored => Some st
  | Threw _ => None
  | Answered result st1 => Some (afterAnswer now result st st1)
  end.

(** The user answers the questions one after the other; each answer comes
    with the time at which its timer fires. *)
Fixpoint play (answers : list (string * string)) (st : Session) : option Session :=
  match answers with
  | [] => Some st
  | (now, chosen) :: answers' =>
      match answerQuestion now chosen st with
      | Some st' => play answers' st'
      | None => None
      end
  end.

(** The number of answers that are the expected one, and the records of
    the answers, for questions answered in order. *)
Fixpoint correctCount (qs : list WikiQuizQuestion) (answers : list (string * string)) : Z :=
  match qs, answers with
  | q :: qs', (_, chosen) :: answers' =>
      ((if String.eqb chosen (answer q) then 1 else 0) + correctCount qs' answers')%Z
  | _, _ => 0%Z
  end.

Fixpoint resultsOf (qs : list WikiQuizQuestion) (answers : list (string * string))
  : list App.QuestionResult :=
  match qs, answers with
  | q :: qs', (_, chosen) :: answers' =>
      {| App.result_question := question q;
         App.result_answer := answer q;
         App.selected := chosen;
         App.isCorrect := String.eqb chosen (answer q) |} :: resultsOf qs' answers'
  | _, _ => []
  end.

Section StartQuiz.

Variable newURL : string -> option URL.
Variable decodeURIComponent : string -> option string.
Variable axios_get : string -> Params -> option Pages.
Variable random : nat -> Z.

(** [startQuiz] (lines 52-81), from the call to the end of [finally].  The
    result pairs the state it leaves with the fact that [alert] was called;
    [None] when the generator does not return. *)
Definition startQuiz (fuel : nat) (url : string) (st : Session)
  : option (Session * bool) :=
  if negb (truthy (Some url)) then Some (st, false)
  else
    let existing := findExisting (history st) url in
    let settled (title : string) (generated : list WikiQuizQuestion) :=
      {| loading := false;
         inputUrl := inputUrl st;
         quiz := generated;
         currentIndex := 0;
         score := 0;
         showResult := false;
         selectedOption := None;
         isCorrect := None;
         history := history st;
         currentResults := [];
         articleTitle := title;
         lastScoreForUrl :=
           match existing with
           | Some e => Some (App.score e)
           | None => None
           end;
         localStorage := localStorage st |} in
    match fetchWikiArticle newURL decodeURIComponent axios_get url with
    | Thrown _ => Some (settled (articleTitle st) [], true)
    | Returned article =>
        match run (generateQuizFromExtract random fuel (title article) (extract article)) with
        | None => None
        | Some generatedQuiz =>
            if (List.length generatedQuiz =? 0)%nat
            then Some (settled (title article) [], true)
            else Some (settled (title article) generatedQuiz, false)
        end
    end.

End StartQuiz.

End View.


(** ** Concrete inputs

    Extracts, oracles and API answers on which the code is run below. *)

(** The answer of the API for a title it does not know, and for one it
    knows. *)
Definition axios_missing : string -> Params -> option Pages :=
  fun _ p => Some [("-1", mkPage (titles p) EmptyString (JSString EmptyString))].

Definition axios_found : string -> Params -> option Pages :=
  fun _ p => Some [("1208", mkPage "Alan Turing" "Alan Mathison Turing was a mathematician." JSUndefined)].

Definition demoRandom : nat -> Z := fun k => (Z.of_nat k * 1234567891234567)%Z.

Definition eiffelExtract : string :=
  "The Eiffel Tower is a wrought-iron lattice tower on the Champ de Mars in Paris, France. It is named after the engineer Gustave Eiffel, whose company designed and built the tower. Locally nicknamed La dame de fer, it was constructed from 1887 to 1889.".

Definition eiffelQuiz : list WikiQuizQuestion :=
  [ {| question := "The Eiffel Tower is a wrought-iron lattice tower on the Champ de Mars in _______, France";
       options := ["Paris"; "designed"; "engineer"; "Eiffel"];
       answer := "Paris" |};
    {| question := "It is named after the engineer _______ Eiffel, whose company designed and built the tower";
       options := ["Gustave"; "Eiffel"; "Locally"; "designed"];
       answer := "Gustave" |};
    {| question := "_______ nicknamed La dame de fer, it was constructed from 1887 to 1889";
       options := ["Locally"; "Gustave"; "designed"; "Eiffel"];
       answer := "Locally" |} ].

(** One capitalised long word and a single other long word, [market]. *)
Definition loopingExtract : string :=
  "Stanley went to the market and then to the market and then to the market and at the end of the day he sat down to eat a pie".

(** A word followed by two commas. *)
Definition doubledCommaExtract : string :=
  "The treaty was signed in Westphalia,, which put an end to the long war that had laid waste to much of the land for thirty years".

(** A sentence whose only long word is a run of seven underscores. *)
Definition underscoreExtract : string :=
  "Enter the word _______ on the line to show that a term was cut from the text and has to be put back by the one who reads it".

Definition eiffelQuestion : WikiQuizQuestion :=
  {| question := "The Eiffel Tower is a wrought-iron lattice tower on the Champ de Mars in _______, France";
     options := ["Paris"; "designed"; "engineer"; "Eiffel"];
     answer := "Paris" |}.

Definition westphaliaQuestion : WikiQuizQuestion :=
  {| question := "The treaty was signed in _______, which put an end to the long war that had laid waste to much of the land for thirty years";
     options := ["Westphalia,"; "treaty"; "thirty"; "signed"];
     answer := "Westphalia," |}.

Definition underscoreQuestion : WikiQuizQuestion :=
  {| question := underscoreExtract;
     options := ["_______"; "Option 1"; "Option 2"; "Option 3"];
     answer := "_______" |}.

(** Records of the history, sessions and API answers for the session. *)
Definition turingRecord : App.HistoryItem :=
  App.mkHistoryItem "https://en.wikipedia.org/wiki/Alan_Turing" "Alan Turing" 3 5
    "11/2/2026, 10:26:00 AM" [].

Definition eiffelRecord : App.HistoryItem :=
  App.mkHistoryItem "https://en.wikipedia.org/wiki/Eiffel_Tower" "Eiffel Tower" 2 3
    "11/2/2026, 10:31:00 AM" [].

Definition clearedInputRecord : App.HistoryItem :=
  App.mkHistoryItem EmptyString "Eiffel Tower" 1 3 "11/2/2026, 10:40:00 AM" [].

Definition axios_eiffel : string -> Params -> option Pages :=
  fun _ p => Some [("9232", mkPage "Eiffel Tower" eiffelExtract JSUndefined)].

Definition emptySession : View.Session :=
  {| View.loading := false; View.inputUrl := "https://en.wikipedia.org/wiki/Eiffel_Tower";
     View.quiz := []; View.currentIndex := 0; View.score := 0;
     View.showResult := false; View.selectedOption := None; View.isCorrect := None;
     View.history := [turingRecord]; View.currentResults := [];
     View.articleTitle := EmptyString; View.lastScoreForUrl := None;
     View.localStorage := Some [turingRecord] |}.

Definition eiffelSession : View.Session :=
  {| View.loading := false; View.inputUrl := "https://en.wikipedia.org/wiki/Eiffel_Tower";
     View.quiz := eiffelQuiz; View.currentIndex := 0; View.score := 0;
     View.showResult := false; View.selectedOption := None; View.isCorrect := None;
     View.history := [turingRecord]; View.currentResults := [];
     View.articleTitle := "Eiffel Tower"; View.lastScoreForUrl := None;
     View.localStorage := Some [turingRecord] |}.

Definition eiffelAnswers : list (string * string) :=
  [("11/2/2026, 10:30:10 AM", "Paris");
   ("11/2/2026, 10:30:20 AM", "Eiffel");
   ("11/2/2026, 10:30:30 AM", "Locally")].

Definition wroughtIronQuestion : WikiQuizQuestion :=
  {| question := "The Eiffel Tower is a _______ lattice tower on the Champ de Mars in Paris, France";
     options := ["wrought-iron"; "designed"; "Gustave"; "company"];
     answer := "wrought-iron" |}.

Definition gustaveQuestion : WikiQuizQuestion :=
  {| question := "It is named after the engineer _______ Eiffel, whose company designed and built the tower";
     options := ["Gustave"; "Eiffel"; "Locally"; "designed"];
     answer := "Gustave" |}.

Definition locallyQuestion : WikiQuizQuestion :=
  {| question := "_______ nicknamed La dame de fer, it was constructed from 1887 to 1889";
     options := ["Locally"; "Gustave"; "designed"; "Eiffel"];
     answer := "Locally" |}.

Definition turingArticle : Article :=
  {| title := "Alan Turing";
     extract := "Alan Mathison Turing was a mathematician.";
     url := "https://en.wikipedia.org/wiki/Alan%20Turing" |}.

(** * Properties of the article resolver *)

Lemma truthy_Some_nonempty (v : string) :
  v <> EmptyString -> truthy (Some v) = true.
Proof. destruct v; [congruence | reflexivity]. Qed.

Lemma parseWikiUrl_unfold newURL decode (u : URL) (s : string) :
  newURL s = Some u ->
  includes (hostname u) "wikipedia.org" = true ->
  parseWikiUrl newURL decode s =
    match wikiSegment (pathname u) with
    | Some part => decode part
    | None =>
        let titleParam := searchParams_get (searchParams u) "title" in
        if truthy titleParam then titleParam else None
    end.
Proof.
  intros Hu Hhost. unfold parseWikiUrl, wikiSegment. rewrite Hu, Hhost.
  destruct (negb (arrayIndexOf "wiki" (split (Ascii.eqb "/") (pathname u)) =? -1)%Z
            && truthy (arrayGet (split (Ascii.eqb "/") (pathname u))
                         (arrayIndexOf "wiki" (split (Ascii.eqb "/") (pathname u)) + 1)%Z))
    eqn:Hguard; [|reflexivity].
  apply andb_true_iff in Hguard as [_ Ht].
  destruct (arrayGet _ _); [reflexivity | discriminate].
Qed.

Lemma append_assoc (a b c : string) : (a ++ b) ++ c = a ++ b ++ c.
Proof. induction a as [|x a IH]; simpl; [reflexivity | now rewrite IH]. Qed.

Lemma startsWith_app (t rest : string) : startsWith (t ++ rest) t = true.
Proof.
  induction t as [|c t IH]; simpl.
  - now destruct rest.
  - now rewrite Ascii.eqb_refl, IH.
Qed.

Lemma indexOf_unfold (s t : string) :
  indexOf s t =
    if startsWith s t then Some 0
    else match s with
         | EmptyString => None
         | String _ s' => option_map S (indexOf s' t)
         end.
Proof. destruct s; reflexivity. Qed.

Lemma includes_app (pre t post : string) : includes (pre ++ t ++ post) t = true.
Proof.
  unfold includes. induction pre as [|c pre IH].
  - cbn [String.append]. now rewrite indexOf_unfold, startsWith_app.
  - rewrite indexOf_unfold. cbn [String.append].
    destruct (startsWith (String c (pre ++ t ++ post)) t); [reflexivity|].
    destruct (indexOf (pre ++ t ++ post) t); [reflexivity | discriminate].
Qed.

Lemma split_no_separator sep (s : string) :
  every (fun c => negb (sep c)) s = true ->
  split sep s = [s].
Proof.
  induction s as [|c s IH]; simpl; [reflexivity|].
  intros H. apply andb_true_iff in H as [Hc Hs].
  apply negb_true_iff in Hc. rewrite Hc, (IH Hs). reflexivity.
Qed.

(** A path [/wiki/<Title>] whose title has no slash yields the title,
    percent-decoded; a title that does not decode yields [null]. *)
Lemma parseWikiUrl_wiki_path newURL decode (s : string) (u : URL) (lang Title : string) :
  newURL s = Some u ->
  hostname u = lang ++ ".wikipedia.org" ->
  pathname u = "/wiki/" ++ Title ->
  Title <> EmptyString ->
  every (fun c => negb (Ascii.eqb "/" c)) Title = true ->
  parseWikiUrl newURL decode s = decode Title.
Proof.
  intros Hu Hhost Hpath Hne Hslash.
  rewrite (parseWikiUrl_unfold newURL decode u s Hu).
  - unfold wikiSegment. rewrite Hpath. cbn [String.append split Ascii.eqb Bool.eqb].
    rewrite (split_no_separator _ _ Hslash). cbn.
    destruct Title; [congruence | reflexivity].
  - rewrite Hhost.
    replace (lang ++ ".wikipedia.org") with ((lang ++ ".") ++ "wikipedia.org" ++ EmptyString).
    + apply includes_app.
    + now rewrite append_assoc.
Qed.

(** C4 as stated fails: a [title] parameter on a host that is not
    Wikipedia's is not returned. *)
Lemma parseWikiUrl_title_param_any_url_false :
  ~ (forall (s : string) (u : URL) (v : string),
        Platform.newURL s = Some u ->
        searchParams_get (searchParams u) "title" = Some v ->
        parseWikiUrl Platform.newURL Platform.decodeURIComponent s = Some v).
Proof.
  intros H.
  specialize (H "https://example.com/?title=Foo"
                (mkURL "example.com" "/" [("title", "Foo")]) "Foo"
                eq_refl eq_refl).
  vm_compute in H. discriminate.
Qed.

(** C4, amended: on a host that contains [wikipedia.org], when no non-empty
    segment follows a first path segment [wiki], a non-empty [title] query
    parameter is returned (its first value). *)
Theorem parseWikiUrl_title_param newURL decode (s : string) (u : URL) (v : string) :
  newURL s = Some u ->
  includes (hostname u) "wikipedia.org" = true ->
  wikiSegment (pathname u) = None ->
  searchParams_get (searchParams u) "title" = Some v ->
  v <> EmptyString ->
  parseWikiUrl newURL decode s = Some v.
Proof.
  intros Hu Hhost Hseg Hget Hv.
  rewrite (parseWikiUrl_unfold newURL decode u s Hu Hhost), Hseg. cbn zeta.
  rewrite Hget, (truthy_Some_nonempty v Hv). reflexivity.
Qed.

Lemma parseWikiUrl_title_param_witness :
  parseWikiUrl Platform.newURL Platform.decodeURIComponent
    "https://en.wikipedia.org/w/index.php?title=Alan_Turing&action=history"
  = Some "Alan_Turing".
Proof.
  apply (parseWikiUrl_title_param Platform.newURL Platform.decodeURIComponent
           "https://en.wikipedia.org/w/index.php?title=Alan_Turing&action=history"
           (mkURL "en.wikipedia.org" "/w/index.php"
                  [("title", "Alan_Turing"); ("action", "history")])
           "Alan_Turing").
  - reflexivity.
  - reflexivity.
  - reflexivity.
  - reflexivity.
  - discriminate.
Defined.

(** C5: on the article URL of AC/DC the code returns [AC], the text up to
    the slash of the title, where the percent-decoded title is [AC/DC]. *)
Theorem parseWikiUrl_title_with_slash :
  Platform.newURL "https://en.wikipedia.org/wiki/AC/DC"
    = Some (mkURL "en.wikipedia.org" "/wiki/AC/DC" [])
  /\ Platform.decodeURIComponent "AC/DC" = Some "AC/DC"
  /\ parseWikiUrl Platform.newURL Platform.decodeURIComponent
       "https://en.wikipedia.org/wiki/AC/DC" = Some "AC".
Proof. repeat split; reflexivity. Qed.

(** C9: a URL whose host name does not contain [wikipedia.org] parses to
    [null], and [fetchWikiArticle] then asks for the whole input as the
    title. *)
Theorem parseWikiUrl_foreign_host newURL decode (s : string) (u : URL) :
  newURL s = Some u ->
  includes (hostname u) "wikipedia.org" = false ->
  parseWikiUrl newURL decode s = None
  /\ titles (fetchParams newURL decode s) = s.
Proof.
  intros Hu Hhost.
  assert (Hp : parseWikiUrl newURL decode s = None).
  { unfold parseWikiUrl. now rewrite Hu, Hhost. }
  split; [exact Hp|].
  unfold fetchParams, resolveTitle. cbn [titles]. now rewrite Hp.
Qed.

Lemma parseWikiUrl_foreign_host_witness :
  parseWikiUrl Platform.newURL Platform.decodeURIComponent
    "https://example.com/wiki/Alan_Turing?title=Alan_Turing" = None
  /\ titles (fetchParams Platform.newURL Platform.decodeURIComponent
               "https://example.com/wiki/Alan_Turing?title=Alan_Turing")
     = "https://example.com/wiki/Alan_Turing?title=Alan_Turing".
Proof.
  apply (parseWikiUrl_foreign_host Platform.newURL Platform.decodeURIComponent _
           (mkURL "example.com" "/wiki/Alan_Turing" [("title", "Alan_Turing")])).
  - reflexivity.
  - reflexivity.
Defined.

(** C6: when the response has a first page, the call fails with the error
    [Article not found] exactly when that page's [missing] flag is truthy or
    its key is [-1]; otherwise it returns the page's title and extract and
    the URL rebuilt from the title. *)
Theorem fetchWikiArticle_not_found_iff newURL decode axios_get
    (titleOrUrl pageId : string) (page : Page) (rest : Pages) :
  axios_get "https://en.wikipedia.org/w/api.php" (fetchParams newURL decode titleOrUrl)
    = Some ((pageId, page) :: rest) ->
  (fetchWikiArticle newURL decode axios_get titleOrUrl = Thrown ArticleNotFound
   <-> (toBoolean (page_missing page) = true \/ pageId = "-1"))
  /\ (~ (toBoolean (page_missing page) = true \/ pageId = "-1") ->
      fetchWikiArticle newURL decode axios_get titleOrUrl
      = Returned {| title := page_title page;
                    extract := page_extract page;
                    url := "https://en.wikipedia.org/wiki/"
                           ++ encodeURIComponent (page_title page) |}).
Proof.
  intros Hget. unfold fetchWikiArticle. rewrite Hget. cbn [objectKeys map fst nth_error objectGet].
  rewrite String.eqb_refl.
  destruct (toBoolean (page_missing page)) eqn:Hm; cbn [orb].
  - split; [split; auto | intros H; exfalso; apply H; now left].
  - destruct (String.eqb_spec pageId "-1") as [He | Hne].
    + split; [split; auto | intros H; exfalso; apply H; now right].
    + split; [|reflexivity].
      split; [discriminate | intros [H | H]; [discriminate | contradiction]].
Qed.

Lemma fetchWikiArticle_not_found_iff_witness :
  (fetchWikiArticle Platform.newURL Platform.decodeURIComponent axios_missing "Alan Turin"
     = Thrown ArticleNotFound
   <-> (toBoolean (JSString EmptyString) = true \/ "-1" = "-1"))
  /\ (~ (toBoolean (JSString EmptyString) = true \/ "-1" = "-1") ->
      fetchWikiArticle Platform.newURL Platform.decodeURIComponent axios_missing "Alan Turin"
      = Returned {| title := "Alan Turin";
                    extract := EmptyString;
                    url := "https://en.wikipedia.org/wiki/"
                           ++ encodeURIComponent "Alan Turin" |}).
Proof.
  apply (fetchWikiArticle_not_found_iff Platform.newURL Platform.decodeURIComponent
           axios_missing "Alan Turin" "-1"
           (mkPage "Alan Turin" EmptyString (JSString EmptyString)) []).
  reflexivity.
Defined.

Example fetchWikiArticle_found :
  fetchWikiArticle Platform.newURL Platform.decodeURIComponent axios_found
    "https://en.wikipedia.org/wiki/Alan_Turing"
  = Returned {| title := "Alan Turing";
                extract := "Alan Mathison Turing was a mathematician.";
                url := "https://en.wikipedia.org/wiki/Alan%20Turing" |}.
Proof. reflexivity. Qed.

(** * Properties of the history store *)

Section HistoryDedup.

Import App.

Lemma sameRecord_key (v t : HistoryItem) :
  sameRecord v t = true <-> recordKey t = recordKey v.
Proof.
  unfold sameRecord, recordKey. rewrite andb_true_iff, !String.eqb_eq.
  split; [intros [-> ->]; reflexivity | intros H; now inversion H].
Qed.

Lemma findIndex_range {A : Type} (p : A -> bool) (a : list A) :
  (-1 <= findIndex p a < Z.of_nat (List.length a))%Z.
Proof.
  induction a as [|x a IH]; simpl List.length; cbn [findIndex]; [lia|].
  destruct (p x); [lia|].
  destruct (Z.eqb_spec (findIndex p a) (-1)); lia.
Qed.

(** The first index at which [p] holds is the length of [pre] exactly when
    [p] holds of no element of [pre]. *)
Lemma findIndex_app {A : Type} (p : A -> bool) (pre : list A) (v : A) (rest : list A) :
  p v = true ->
  (findIndex p (pre ++ v :: rest)%list = Z.of_nat (List.length pre)
   <-> forallb (fun x => negb (p x)) pre = true).
Proof.
  intros Hv. induction pre as [|x pre IH].
  - cbn. rewrite Hv. tauto.
  - cbn [List.app findIndex forallb List.length].
    pose proof (findIndex_range p (pre ++ v :: rest)%list) as Hr.
    destruct (p x); cbn [negb andb].
    + split; [lia | discriminate].
    + destruct (Z.eqb_spec (findIndex p (pre ++ v :: rest)%list) (-1)) as [E | E].
      * split; [lia|]. intros H. apply IH in H. lia.
      * rewrite <- IH. lia.
Qed.

Lemma filterFrom_keys (pre rest : list HistoryItem) :
  let kept := filterFrom (fun v i a => (findIndex (sameRecord v) a =? i)%Z)
                (pre ++ rest)%list (Z.of_nat (List.length pre)) rest in
  NoDup (map recordKey kept)
  /\ (forall w, In w kept -> In w rest /\ ~ In (recordKey w) (map recordKey pre)).
Proof.
  revert pre. induction rest as [|v rest IH]; intros pre; cbn zeta.
  - cbn. split; [constructor | contradiction].
  - cbn [filterFrom].
    specialize (IH (pre ++ [v])%list). cbn zeta in IH.
    rewrite <- List.app_assoc, List.length_app in IH. cbn [List.app List.length] in IH.
    replace (Z.of_nat (List.length pre + 1)) with (Z.of_nat (List.length pre) + 1)%Z in IH by lia.
    destruct IH as [IHnd IHin].
    assert (Hv : sameRecord v v = true) by (now apply sameRecord_key).
    assert (Htail : forall w,
               In w (filterFrom (fun v i a => (findIndex (sameRecord v) a =? i)%Z)
                       (pre ++ v :: rest)%list (Z.of_nat (List.length pre) + 1)%Z rest) ->
               In w rest /\ recordKey w <> recordKey v
               /\ ~ In (recordKey w) (map recordKey pre)).
    { intros w Hw. destruct (IHin w Hw) as [H1 H2]. split; [exact H1|].
      rewrite List.map_app, List.in_app_iff in H2. cbn in H2. split; intros H; apply H2; auto. }
    destruct (Z.eqb_spec (findIndex (sameRecord v) (pre ++ v :: rest)%list)
                (Z.of_nat (List.length pre))) as [E | E].
    + apply (findIndex_app _ pre v rest Hv) in E.
      split.
      * cbn [map]. constructor; [|exact IHnd].
        intros Hin. apply List.in_map_iff in Hin as [w [Hk Hw]].
        destruct (Htail w Hw) as [_ [Hne _]]. contradiction.
      * intros w [<- | Hw].
        -- split; [now left|]. intros Hin.
           apply List.in_map_iff in Hin as [t [Hk Ht]].
           rewrite List.forallb_forall in E. specialize (E t Ht).
           apply negb_true_iff in E.
           assert (sameRecord v t = true) by (now apply sameRecord_key). congruence.
        -- destruct (Htail w Hw) as [H1 [_ H3]]. split; [now right | exact H3].
    + split; [exact IHnd|].
      intros w Hw. destruct (Htail w Hw) as [H1 [_ H3]]. split; [now right | exact H3].
Qed.

(** C8: whatever the prior history and the new record, the list that
    [saveToHistory] persists has no two entries with the same [url] and
    [date]; it is also the list handed to [setHistory]. *)
Theorem saveToHistory_no_duplicates (item : HistoryItem) (st : Store) :
  exists newHistory,
    persisted (saveToHistory item st) = Some newHistory
    /\ history (saveToHistory item st) = newHistory
    /\ NoDup (map recordKey newHistory)
    /\ (forall i j hi hj,
           nth_error newHistory i = Some hi ->
           nth_error newHistory j = Some hj ->
           url hi = url hj -> date hi = date hj -> i = j).
Proof.
  exists (newHistoryOf (history st) item).
  assert (Hnd : NoDup (map recordKey (newHistoryOf (history st) item))).
  { exact (proj1 (filterFrom_keys [] (item :: history st))). }
  repeat split; [exact Hnd|].
  intros i j hi hj Hi Hj Hu Hd.
  apply (proj1 (List.NoDup_nth_error (map recordKey (newHistoryOf (history st) item))) Hnd).
  - rewrite List.length_map. apply List.nth_error_Some. congruence.
  - rewrite !List.nth_error_map, Hi, Hj. cbn. unfold recordKey. now rewrite Hu, Hd.
Qed.

(** Saving a record twice leaves one entry for it. *)
Example saveToHistory_twice :
  let item := mkHistoryItem "Alan Turing" "Alan Turing" 3 5 "11/2/2026, 10:26:00 AM" [] in
  persisted (saveToHistory item (saveToHistory item (mkStore [] None))) = Some [item].
Proof. reflexivity. Qed.

End HistoryDedup.

(** * Properties of the quiz generator *)

Lemma NoDup_app_singleton {A : Type} (l : list A) (x : A) :
  NoDup l -> ~ In x l -> NoDup (l ++ [x])%list.
Proof.
  intros Hl Hx. apply (Permutation_NoDup (Permutation_cons_append l x)).
  now constructor.
Qed.

Lemma bind_Some {A B : Type} (m : Gen A) (f : A -> Gen B) k b k' :
  bind m f k = Some (b, k') ->
  exists a k1, m k = Some (a, k1) /\ f a k1 = Some (b, k').
Proof.
  unfold bind. destruct (m k) as [[a k1]|]; [|discriminate].
  intros H. now exists a, k1.
Qed.

Lemma ret_Some {A : Type} (a b : A) k k' :
  ret a k = Some (b, k') -> b = a /\ k' = k.
Proof. unfold ret. intros H. now inversion H. Qed.

Ltac gen_inv H :=
  match type of H with
  | bind _ _ _ = Some _ =>
      let a := fresh "a" in
      let k := fresh "k" in
      let H1 := fresh "Hm" in
      apply bind_Some in H as (a & k & H1 & H)
  | ret _ _ = Some _ =>
      let E := fresh "E" in
      apply ret_Some in H as [E ?]; subst
  end.

(** Facts on the string primitives *)

Lemma length_append (a b : string) : length (a ++ b) = length a + length b.
Proof. induction a as [|c a IH]; simpl; [reflexivity | now rewrite IH]. Qed.

Lemma every_append p (a b : string) : every p (a ++ b) = every p a && every p b.
Proof.
  induction a as [|c a IH]; simpl; [reflexivity|].
  now rewrite IH, andb_assoc.
Qed.

Lemma split_nonempty sep (s : string) : split sep s <> [].
Proof.
  destruct s as [|c s]; simpl; [discriminate|].
  destruct (sep c); [discriminate|]. destruct (split sep s); discriminate.
Qed.

(** The first piece of a split is a prefix free of separators. *)
Lemma split_head sep (s w0 : string) (ws : list string) :
  split sep s = w0 :: ws ->
  every (fun c => negb (sep c)) w0 = true /\ exists rest, s = w0 ++ rest.
Proof.
  revert w0 ws. induction s as [|c s IH]; intros w0 ws H; cbn [split] in H.
  - inversion H; subst. split; [reflexivity | now exists EmptyString].
  - destruct (sep c) eqn:Hc.
    + inversion H; subst. split; [reflexivity | now exists (String c s)].
    + destruct (split sep s) as [|w1 ws1] eqn:Hs; [now destruct (split_nonempty sep s)|].
      inversion H; subst.
      destruct (IH w1 _ eq_refl) as [H1 (rest & ->)].
      split; [cbn; now rewrite Hc, H1 | now exists rest].
Qed.

(** Every piece of a split is free of separators and occurs in the string
    that was split. *)
Lemma split_pieces sep (s w : string) :
  In w (split sep s) ->
  every (fun c => negb (sep c)) w = true
  /\ exists pre post, s = pre ++ w ++ post.
Proof.
  revert w. induction s as [|c s IH]; intros w Hw; cbn [split] in Hw.
  - destruct Hw as [<- | []]. split; [reflexivity | now exists EmptyString, EmptyString].
  - destruct (sep c) eqn:Hc.
    + destruct Hw as [<- | Hw].
      * split; [reflexivity | now exists EmptyString, (String c s)].
      * destruct (IH w Hw) as [H1 (pre & post & ->)].
        split; [exact H1 | now exists (String c pre), post].
    + destruct (split sep s) as [|w0 ws] eqn:Hs; [now destruct (split_nonempty sep s)|].
      destruct Hw as [<- | Hw].
      * destruct (split_head sep s w0 ws Hs) as [H1 (rest & ->)].
        split; [cbn; now rewrite Hc, H1 | now exists EmptyString, rest].
      * destruct (IH w (or_intror Hw)) as [H1 (pre & post & ->)].
        split; [exact H1 | now exists (String c pre), post].
Qed.

(** [stripTrailingPunct] removes at most the last code unit, and only a
    comma, a full stop or a semicolon. *)
Lemma stripTrailingPunct_spec (w : string) :
  (stripTrailingPunct w = w
   /\ (w = EmptyString \/ exists c, lastChar w = Some c /\ isTrailingPunct c = false))
  \/ (exists c, w = stripTrailingPunct w ++ String c EmptyString
                /\ isTrailingPunct c = true).
Proof.
  induction w as [|c w IH]; [left; auto|].
  destruct w as [|d w].
  - cbn. destruct (isTrailingPunct c) eqn:Hc.
    + right. now exists c.
    + left. split; [reflexivity|]. right. now exists c.
  - change (stripTrailingPunct (String c (String d w)))
      with (String c (stripTrailingPunct (String d w))).
    change (lastChar (String c (String d w))) with (lastChar (String d w)).
    destruct IH as [[E H] | (x & E & Hx)].
    + left. rewrite E. split; [reflexivity|]. right.
      destruct H as [H | H]; [discriminate | exact H].
    + right. exists x. split; [|exact Hx]. cbn [String.append]. now rewrite <- E.
Qed.

Lemma stripTrailingPunct_prefix (w : string) :
  exists rest, w = stripTrailingPunct w ++ rest /\ length rest <= 1.
Proof.
  destruct (stripTrailingPunct_spec w) as [[E _] | (c & E & _)].
  - exists EmptyString. rewrite E. split; [|cbn; lia].
    clear. induction w as [|c w IH]; cbn; [reflexivity | now rewrite <- IH].
  - exists (String c EmptyString). split; [exact E | cbn; lia].
Qed.

Lemma stripTrailingPunct_length (w : string) :
  length w <= S (length (stripTrailingPunct w)).
Proof.
  destruct (stripTrailingPunct_prefix w) as (rest & E & Hr).
  rewrite E at 1. rewrite length_append. lia.
Qed.

Lemma toLowerCaseChar_space (c : ascii) : isSpace (toLowerCaseChar c) = isSpace c.
Proof.
  destruct c as [[] [] [] [] [] [] [] []]; reflexivity.
Qed.

Lemma toLowerCase_no_space (w : string) :
  every (fun c => negb (isSpace c)) (toLowerCase w)
  = every (fun c => negb (isSpace c)) w.
Proof.
  induction w as [|c w IH]; cbn; [reflexivity|].
  now rewrite toLowerCaseChar_space, IH.
Qed.

Section GeneratorProperties.

Variable random : nat -> Z.

(** Every draw of an index falls inside the array. *)
Lemma randomIndex_lt (n : nat) k i k' :
  0 < n -> randomIndex random n k = Some (i, k') -> i < n /\ k' = S k.
Proof.
  intros Hn H. unfold randomIndex, bind, Math_random, ret in H.
  inversion H; subst; clear H. split; [|reflexivity].
  pose proof (Z.mod_pos_bound (random k) (2 ^ 53) ltac:(lia)) as Hr.
  set (r := (random k mod 2 ^ 53)%Z) in *.
  assert (Hhi : (r * Z.of_nat n / 2 ^ 53 < Z.of_nat n)%Z).
  { apply Z.div_lt_upper_bound; [lia | nia]. }
  assert (Hlo : (0 <= r * Z.of_nat n / 2 ^ 53)%Z) by (apply Z.div_pos; nia).
  change (Z.to_nat (r * Z.of_nat n / 2 ^ 53) < n).
  generalize dependent (r * Z.of_nat n / 2 ^ 53)%Z. intros q Hhi Hlo. lia.
Qed.

Lemma randomIndex_total (n : nat) k :
  exists i, randomIndex random n k = Some (i, S k).
Proof. unfold randomIndex, bind, Math_random, ret. eauto. Qed.

(** The shuffle always returns, and returns a permutation. *)
Lemma insertRandom_perm {A : Type} (x : A) (l : list A) k l' k' :
  insertRandom random x l k = Some (l', k') -> Permutation (x :: l) l'.
Proof.
  revert k l' k'. induction l as [|y l IH]; intros k l' k' H; cbn [insertRandom] in H.
  - gen_inv H. reflexivity.
  - gen_inv H. destruct a.
    + gen_inv H. reflexivity.
    + gen_inv H. gen_inv H. apply IH in Hm0.
      rewrite perm_swap. now constructor.
Qed.

Lemma sortRandom_perm {A : Type} (l : list A) k l' k' :
  sortRandom random l k = Some (l', k') -> Permutation l l'.
Proof.
  revert k l' k'. induction l as [|x l IH]; intros k l' k' H; cbn [sortRandom] in H.
  - gen_inv H. reflexivity.
  - gen_inv H. apply IH in Hm. apply insertRandom_perm in H.
    now rewrite <- H, Hm.
Qed.

Lemma insertRandom_total {A : Type} (x : A) (l : list A) k :
  exists l' k', insertRandom random x l k = Some (l', k').
Proof.
  revert k. induction l as [|y l IH]; intros k; cbn [insertRandom].
  - unfold ret. eauto.
  - unfold randomComparator, Math_random. unfold bind, ret. cbv beta iota.
    match goal with |- context [if ?b then _ else _] => destruct b end; [eauto|].
    destruct (IH (S k)) as (l' & k' & ->). eauto.
Qed.

Lemma sortRandom_total {A : Type} (l : list A) k :
  exists l' k', sortRandom random l k = Some (l', k').
Proof.
  revert k. induction l as [|x l IH]; intros k; cbn [sortRandom].
  - unfold ret. eauto.
  - unfold bind. destruct (IH k) as (s & k1 & ->). apply insertRandom_total.
Qed.

Lemma hasOption_In options fake :
  hasOption options fake = true <-> In (toLowerCase fake) (map toLowerCase options).
Proof.
  unfold hasOption. rewrite List.existsb_exists, List.in_map_iff.
  split; intros (o & H1 & H2); exists o.
  - apply String.eqb_eq in H2. auto.
  - rewrite String.eqb_eq. auto.
Qed.

(** What the sampling loop guarantees when it returns. *)
Lemma sampleOptions_sound fuel allWords : forall options k sampled k',
  sampleOptions random fuel allWords options k = Some (sampled, k') ->
  List.length options <= 4 ->
  NoDup (map toLowerCase options) ->
  (exists extra, sampled = options ++ extra)%list
  /\ List.length sampled <= 4
  /\ NoDup (map toLowerCase sampled)
  /\ (4 <= List.length sampled \/ (allWords = [] /\ sampled = options)).
Proof.
  assert (Hexit : forall options k sampled k',
             ret options k = Some (sampled, k') ->
             (List.length options <? 4) && (0 <? List.length allWords) = false ->
             List.length options <= 4 ->
             NoDup (map toLowerCase options) ->
             (exists extra, sampled = options ++ extra)%list
             /\ List.length sampled <= 4
             /\ NoDup (map toLowerCase sampled)
             /\ (4 <= List.length sampled \/ (allWords = [] /\ sampled = options))).
  { intros options k sampled k' H Hg Hlen Hnd. gen_inv H.
    split; [exists []; now rewrite List.app_nil_r|].
    split; [exact Hlen|]. split; [exact Hnd|].
    apply andb_false_iff in Hg as [Hg | Hg].
    - apply Nat.ltb_ge in Hg. now left.
    - right. split; [|reflexivity]. destruct allWords; [reflexivity | discriminate]. }
  induction fuel as [|fuel IH]; intros options k sampled k' H Hlen Hnd;
    cbn [sampleOptions] in H;
    destruct ((List.length options <? 4) && (0 <? List.length allWords)) eqn:Hg;
    try (now apply (Hexit options k sampled k')); try discriminate.
  apply andb_true_iff in Hg as [Hlt Hpool]. apply Nat.ltb_lt in Hlt.
  gen_inv H.
  fold (hasOption options (stripTrailingPunct (nth a allWords EmptyString))) in H.
  destruct (hasOption options (stripTrailingPunct (nth a allWords EmptyString))) eqn:Hhas;
    cbn [negb] in H.
  - apply IH in H; auto.
  - apply IH in H.
    + destruct H as ((extra & ->) & H2 & H3 & H4).
      split; [eexists; now rewrite <- List.app_assoc|].
      split; [exact H2|]. split; [exact H3|].
      destruct H4 as [H4 | [H4 _]]; [now left|].
      rewrite H4 in Hpool. discriminate.
    + rewrite List.length_app. cbn. lia.
    + rewrite List.map_app. cbn [map].
      apply NoDup_app_singleton; [exact Hnd|].
      intros Hin. apply hasOption_In in Hin. congruence.
Qed.

Lemma forSentences_sound fuel title extract pool : forall quiz k quiz' k',
  forSentences random fuel title extract pool quiz k = Some (quiz', k') ->
  forall q, In q quiz' ->
    In q quiz \/ exists sentence, In sentence pool
                                  /\ producedFrom random fuel title extract sentence q.
Proof.
  induction pool as [|sentence pool IH]; intros quiz k quiz' k' H q Hq;
    cbn [forSentences] in H.
  - gen_inv H. now left.
  - destruct (5 <=? List.length quiz); [gen_inv H; now left|].
    destruct (0 <? List.length (targetWordsOf title (trim sentence))) eqn:Hlen.
    + apply Nat.ltb_lt in Hlen.
      gen_inv H. gen_inv H. gen_inv H.
      destruct (randomIndex_lt _ _ _ _ Hlen Hm) as [Hi _].
      destruct (IH _ _ _ _ H q Hq) as [Hin | (s' & Hs' & Hp)].
      * apply List.in_app_iff in Hin as [Hin | [<- | []]]; [now left|].
        right. exists sentence. split; [now left|].
        exists (nth a (targetWordsOf title (trim sentence)) EmptyString), a0, k0, k1.
        cbn [answer question options].
        repeat split; auto.
        -- now apply List.nth_In.
        -- now apply sortRandom_perm in Hm1.
      * right. exists s'. split; [now right | exact Hp].
    + destruct (IH _ _ _ _ H q Hq) as [Hin | (s' & Hs' & Hp)]; [now left|].
      right. exists s'. split; [now right | exact Hp].
Qed.

(** Every question returned comes from a sentence of the pool. *)
Lemma generateQuizFromExtract_sound fuel title extract quiz q :
  run (generateQuizFromExtract random fuel title extract) = Some quiz ->
  In q quiz ->
  exists sentence, In sentence (poolOf extract)
                   /\ producedFrom random fuel title extract sentence q.
Proof.
  unfold run, generateQuizFromExtract. intros H Hq.
  destruct (bind _ _ 0) as [[quiz0 k0]|] eqn:Hb; [|discriminate].
  inversion H; subst quiz0; clear H.
  gen_inv Hb.
  destruct (forSentences_sound _ _ _ _ _ _ _ _ Hb q Hq) as [[] | (s & Hs & Hp)].
  exists s. split; [|exact Hp].
  apply sortRandom_perm in Hm. now apply (Permutation_in _ (Permutation_sym Hm)).
Qed.

(** Four rounds are enough for the padding loop to reach its exit. *)
Lemma padOptions_length (n : nat) : forall options,
  4 - List.length options <= n -> 4 <= List.length (padOptions n options).
Proof.
  induction n as [|n IH]; intros options Hn; cbn [padOptions]; [lia|].
  destruct (Nat.ltb_spec (List.length options) 4) as [Hlt | Hge]; [|exact Hge].
  apply IH. rewrite List.length_app. cbn [List.length]. lia.
Qed.

(** The candidate words are words of the sentence, longer than 5. *)
Lemma targetWordsOf_spec title trimmed w :
  In w (targetWordsOf title trimmed) ->
  In w (split isSpace trimmed) /\ 5 < length w.
Proof.
  unfold targetWordsOf.
  destruct (0 <? List.length _); intros H; apply List.filter_In in H as [H1 H2].
  - split; [exact H1|]. apply andb_true_iff in H2 as [H2 _].
    apply andb_true_iff in H2 as [H2 _]. now apply Nat.ltb_lt in H2.
  - split; [exact H1|]. apply Nat.ltb_lt in H2. lia.
Qed.

Lemma producedFrom_answer fuel title extract sentence q :
  producedFrom random fuel title extract sentence q ->
  exists w, In w (split isSpace (trim sentence))
            /\ 5 < length w
            /\ answer q = stripTrailingPunct w.
Proof.
  intros (w & sampled & k & k' & Hw & Ha & _).
  apply targetWordsOf_spec in Hw as [H1 H2]. now exists w.
Qed.

Lemma producedFrom_answer_no_space fuel title extract sentence q :
  producedFrom random fuel title extract sentence q ->
  every (fun c => negb (isSpace c)) (toLowerCase (answer q)) = true.
Proof.
  intros H. destruct (producedFrom_answer _ _ _ _ _ H) as (w & Hw & _ & Ha).
  rewrite toLowerCase_no_space, Ha.
  destruct (split_pieces _ _ _ Hw) as [Hev _].
  destruct (stripTrailingPunct_prefix w) as (rest & E & _).
  rewrite E, every_append in Hev. now apply andb_true_iff in Hev as [Hev _].
Qed.

(** The options of a question before the shuffle. *)
Lemma producedFrom_options fuel title extract sentence q :
  producedFrom random fuel title extract sentence q ->
  exists padded,
    Permutation padded (options q)
    /\ List.length padded = 4
    /\ NoDup (map toLowerCase padded)
    /\ In (answer q) padded.
Proof.
  intros H. pose proof (producedFrom_answer_no_space _ _ _ _ _ H) as Hsp.
  destruct H as (w & sampled & k & k' & Hw & Ha & Hq & Hs & Hperm).
  exists (padOptions 4 sampled). split; [exact Hperm|].
  apply sampleOptions_sound in Hs; [|cbn; lia | repeat constructor; cbn; tauto].
  destruct Hs as ((extra & ->) & Hlen & Hnd & [Hfour | [_ E]]).
  - assert (Hl : List.length ([answer q] ++ extra)%list = 4) by lia.
    assert (Hpad : padOptions 4 ([answer q] ++ extra)%list = ([answer q] ++ extra)%list).
    { cbn [padOptions]. now rewrite Hl. }
    rewrite Hpad. repeat split; auto. now left.
  - rewrite E.
    change (padOptions 4 [answer q])
      with [answer q; "Option 1"; "Option 2"; "Option 3"].
    repeat split; [|now left].
    cbn [map].
    constructor.
    + intros Hin.
      assert (Hf : every (fun c => negb (isSpace c)) (toLowerCase (answer q)) = false).
      { destruct Hin as [<- | [<- | [<- | []]]]; reflexivity. }
      congruence.
    + repeat constructor; cbn; intuition discriminate.
Qed.

End GeneratorProperties.

(** C2: every question returned has exactly four options, pairwise distinct
    up to case, among which the answer is found up to case (and indeed
    as it stands). *)
Theorem generateQuizFromExtract_options (random : nat -> Z) (fuel : nat)
    (title extract : string) (quiz : list WikiQuizQuestion) (q : WikiQuizQuestion) :
  run (generateQuizFromExtract random fuel title extract) = Some quiz ->
  In q quiz ->
  List.length (options q) = 4
  /\ NoDup (map toLowerCase (options q))
  /\ In (toLowerCase (answer q)) (map toLowerCase (options q))
  /\ In (answer q) (options q).
Proof.
  intros Hrun Hq.
  destruct (generateQuizFromExtract_sound random _ _ _ _ _ Hrun Hq) as (s & _ & Hp).
  destruct (producedFrom_options random _ _ _ _ _ Hp) as (padded & Hperm & Hlen & Hnd & Hin).
  apply (Permutation_in _ Hperm) in Hin.
  split; [now rewrite <- (Permutation_length Hperm)|].
  split; [apply (Permutation_NoDup (Permutation_map toLowerCase Hperm) Hnd)|].
  split; [now apply List.in_map | exact Hin].
Qed.

(** C10: the answer of every question returned has at least 5 characters:
    it is a word of more than 5 characters less at most its last one. *)
Theorem generateQuizFromExtract_answer_length (random : nat -> Z) (fuel : nat)
    (title extract : string) (quiz : list WikiQuizQuestion) (q : WikiQuizQuestion) :
  run (generateQuizFromExtract random fuel title extract) = Some quiz ->
  In q quiz ->
  5 <= length (answer q)
  /\ exists w, 5 < length w
               /\ answer q = stripTrailingPunct w
               /\ length w <= S (length (answer q)).
Proof.
  intros Hrun Hq.
  destruct (generateQuizFromExtract_sound random _ _ _ _ _ Hrun Hq) as (s & _ & Hp).
  destruct (producedFrom_answer random _ _ _ _ _ Hp) as (w & _ & Hlen & Ha).
  pose proof (stripTrailingPunct_length w) as Hs. rewrite <- Ha in Hs.
  split; [lia|]. exists w. auto.
Qed.

(** The candidates of the fallback are longer than 6. *)
Lemma targetWordsOf_fallback title trimmed w :
  In w (targetWordsOf title trimmed) ->
  testLeadingUpper w = false ->
  6 < length w.
Proof.
  unfold targetWordsOf.
  destruct (0 <? List.length _); intros H Hup; apply List.filter_In in H as [_ H2].
  - apply andb_true_iff in H2 as [_ H2]. congruence.
  - now apply Nat.ltb_lt in H2.
Qed.

(** ** Masking the answer *)

Lemma startsWith_iff (s t : string) :
  startsWith s t = true <-> exists post, s = t ++ post.
Proof.
  split.
  - revert s. induction t as [|c t IH]; intros s H.
    + now exists s.
    + destruct s as [|d s]; [discriminate|]. cbn in H.
      apply andb_true_iff in H as [Hc H]. apply Ascii.eqb_eq in Hc. subst d.
      destruct (IH s H) as (post & ->). now exists post.
  - intros (post & ->). apply startsWith_app.
Qed.

Lemma drop_length_append (t post : string) : drop (length t) (t ++ post) = post.
Proof. induction t as [|c t IH]; cbn; [now destruct post | exact IH]. Qed.

Lemma replace_unfold (s t r : string) :
  replace s t r =
    if startsWith s t then r ++ drop (length t) s
    else match s with
         | EmptyString => EmptyString
         | String c s' => String c (replace s' t r)
         end.
Proof. destruct s; reflexivity. Qed.

(** [replace] rewrites the first occurrence of the pattern, when there is
    one, and nothing else. *)
Lemma replace_first_occurrence (s t r : string) :
  (exists pre post, s = pre ++ t ++ post) ->
  exists pre post,
    s = pre ++ t ++ post
    /\ replace s t r = pre ++ r ++ post
    /\ forall pre' post', s = pre' ++ t ++ post' -> length pre <= length pre'.
Proof.
  induction s as [|c s IH]; intros (pre0 & post0 & E); rewrite replace_unfold.
  - destruct pre0; [|discriminate]. destruct t; [|discriminate].
    exists EmptyString, EmptyString. cbn. repeat split; auto. intros; lia.
  - destruct (startsWith (String c s) t) eqn:Hst.
    + apply startsWith_iff in Hst as (post & Hpost).
      exists EmptyString, post. cbn [String.append length].
      split; [exact Hpost|]. split; [|intros; lia].
      now rewrite Hpost, drop_length_append.
    + assert (Hne : forall pre' post', String c s = pre' ++ t ++ post' ->
                      exists pre'', pre' = String c pre'' /\ s = pre'' ++ t ++ post').
      { intros pre' post' E'. destruct pre' as [|d pre''].
        - cbn in E'.
          assert (startsWith (String c s) t = true) by (apply startsWith_iff; eauto).
          congruence.
        - cbn in E'. inversion E'; subst. eauto. }
      destruct (Hne _ _ E) as (pre1 & -> & E1).
      destruct IH as (pre & post & Es & Hr & Hmin); [eauto|].
      exists (String c pre), post. cbn [String.append length].
      split; [now rewrite <- Es|]. split; [now rewrite Hr|].
      intros pre' post' E'. destruct (Hne _ _ E') as (pre'' & -> & E'').
      cbn. apply le_n_S. eauto.
Qed.

Lemma drop_append (pre s : string) : drop (length pre) (pre ++ s) = s.
Proof. apply drop_length_append. Qed.

(** A string that starts [b ++ p] agrees with [b] on its first
    [length b] code units. *)
Lemma startsWith_take (b p a : string) :
  startsWith (b ++ p) a = true -> startsWith b (take (length b) a) = true.
Proof.
  revert a. induction b as [|x b IH]; intros a H; cbn [length take].
  - reflexivity.
  - destruct a as [|y a]; [reflexivity|].
    cbn in H |- *. apply andb_true_iff in H as [Hc H].
    now rewrite Hc, (IH a H).
Qed.

(** C3, amended: the question is the trimmed sentence in which the first
    occurrence of the answer, which always exists, is replaced by the
    blank; unless the first seven characters of the answer are all
    underscores, the question does not read the answer at the masked
    place. *)
Theorem generateQuizFromExtract_question (random : nat -> Z) (fuel : nat)
    (title extract : string) (quiz : list WikiQuizQuestion) (q : WikiQuizQuestion) :
  run (generateQuizFromExtract random fuel title extract) = Some quiz ->
  In q quiz ->
  exists sentence pre post,
    In sentence (poolOf extract)
    /\ trim sentence = pre ++ answer q ++ post
    /\ question q = pre ++ blank ++ post
    /\ (forall pre' post', trim sentence = pre' ++ answer q ++ post' ->
                           length pre <= length pre')
    /\ (startsWith blank (take 7 (answer q)) = false ->
        startsWith (drop (length pre) (question q)) (answer q) = false).
Proof.
  intros Hrun Hq.
  destruct (generateQuizFromExtract_sound random _ _ _ _ _ Hrun Hq) as (s & Hs & Hp).
  destruct (producedFrom_answer random _ _ _ _ _ Hp) as (w & Hw & _ & Ha).
  destruct Hp as (_ & _ & _ & _ & _ & _ & Hquestion & _).
  destruct (split_pieces _ _ _ Hw) as [_ (pre0 & post0 & E0)].
  destruct (stripTrailingPunct_prefix w) as (rest & Ew & _).
  assert (Hocc : exists pre post, trim s = pre ++ answer q ++ post).
  { exists pre0, (rest ++ post0). rewrite E0, Ew at 1. now rewrite Ha, append_assoc. }
  destruct (replace_first_occurrence (trim s) (answer q) blank Hocc)
    as (pre & post & E & Hr & Hmin).
  exists s, pre, post. rewrite Hquestion, Hr.
  repeat split; auto.
  intros Hunder. rewrite drop_append.
  destruct (startsWith (blank ++ post) (answer q)) eqn:Hst; [|reflexivity].
  apply startsWith_take in Hst. change (length blank) with 7 in Hst.
  congruence.
Qed.

(** ** Runs of the generator on concrete extracts *)

Example eiffel_run :
  run (generateQuizFromExtract demoRandom 100 "Eiffel Tower" eiffelExtract)
  = Some eiffelQuiz.
Proof. vm_compute. reflexivity. Qed.

Section SamplingLoop.

Variable random : nat -> Z.

(** Once every candidate is among the options and fewer than 4 options are
    held, no iteration changes anything: the loop uses up any budget. *)
Lemma sampleOptions_saturated (allWords options : list string) :
  allWords <> [] ->
  List.length options < 4 ->
  (forall w, In w allWords -> hasOption options (stripTrailingPunct w) = true) ->
  forall fuel k, sampleOptions random fuel allWords options k = None.
Proof.
  intros Hne Hlen Hsat fuel.
  assert (Hg : (List.length options <? 4) && (0 <? List.length allWords) = true).
  { apply andb_true_iff. split; [now apply Nat.ltb_lt|].
    destruct allWords; [congruence | reflexivity]. }
  induction fuel as [|fuel IH]; intros k; cbn [sampleOptions]; rewrite Hg; [reflexivity|].
  unfold bind at 1.
  destruct (randomIndex_total random (List.length allWords) k) as (i & Hi).
  rewrite Hi.
  assert (Hlt : i < List.length allWords).
  { apply (randomIndex_lt random _ k i (S k)); [|exact Hi].
    destruct allWords; [congruence | cbn; lia]. }
  fold (hasOption options (stripTrailingPunct (nth i allWords EmptyString))).
  rewrite (Hsat _ (List.nth_In _ _ Hlt)). cbn [negb]. apply IH.
Qed.

(** When all the candidates strip to one and the same word, the loop that
    starts from the answer alone never returns. *)
Lemma sampleOptions_one_distractor (allWords : list string) (target fake : string) :
  allWords <> [] ->
  (forall w, In w allWords -> stripTrailingPunct w = fake) ->
  forall fuel k, sampleOptions random fuel allWords [target] k = None.
Proof.
  intros Hne Hall fuel k.
  destruct (hasOption [target] fake) eqn:Hhas.
  - apply sampleOptions_saturated; [exact Hne | cbn; lia|].
    intros w Hw. now rewrite (Hall w Hw).
  - destruct fuel as [|fuel]; cbn [sampleOptions].
    + destruct allWords; [congruence | reflexivity].
    + replace ((List.length [target] <? 4) && (0 <? List.length allWords)) with true
        by (destruct allWords; [congruence | reflexivity]).
      unfold bind at 1.
      destruct (randomIndex_total random (List.length allWords) k) as (i & Hi).
      rewrite Hi.
      assert (Hlt : i < List.length allWords).
      { apply (randomIndex_lt random _ k i (S k)); [|exact Hi].
        destruct allWords; [congruence | cbn; lia]. }
      rewrite (Hall _ (List.nth_In _ _ Hlt)).
      fold (hasOption [target] fake). rewrite Hhas. cbn [negb].
      apply sampleOptions_saturated; [exact Hne | cbn; lia|].
      intros w Hw. rewrite (Hall w Hw).
      unfold hasOption. cbn. now rewrite String.eqb_refl, orb_true_r.
Qed.

(** With an empty pool of candidates the loop returns at once. *)
Lemma sampleOptions_empty_pool (options : list string) fuel k :
  sampleOptions random fuel [] options k = Some (options, k).
Proof. destruct fuel; cbn; now rewrite andb_false_r. Qed.

End SamplingLoop.

(** C1: on [loopingExtract] the call does not return, whatever the draws of
    [Math.random] and however many iterations the sampling loop is given:
    the loop holds 2 options and its pool offers [market] for ever. *)
Theorem generateQuizFromExtract_diverges (random : nat -> Z) (fuel : nat) :
  run (generateQuizFromExtract random fuel "Quiz" loopingExtract) = None.
Proof.
  assert (Hpool : poolOf loopingExtract = [loopingExtract]) by (vm_compute; reflexivity).
  assert (Htargets : targetWordsOf "Quiz" (trim loopingExtract) = ["Stanley"])
    by (vm_compute; reflexivity).
  assert (Hwords : allWordsOf loopingExtract "Stanley" = ["market"; "market"; "market"])
    by (vm_compute; reflexivity).
  unfold run, generateQuizFromExtract. rewrite Hpool.
  change (sortRandom random [loopingExtract]) with (@ret (list string) [loopingExtract]).
  unfold bind at 1. unfold ret at 1.
  cbn [forSentences List.length Nat.leb]. rewrite Htargets. cbn [List.length Nat.ltb Nat.leb].
  unfold bind at 1.
  destruct (randomIndex_total random 1 0) as (i & Hi). rewrite Hi.
  assert (i = 0) as -> by (apply (randomIndex_lt random 1 0 i 1) in Hi; lia).
  change (stripTrailingPunct (nth 0 ["Stanley"] EmptyString)) with "Stanley".
  rewrite Hwords. unfold bind at 1.
  rewrite (sampleOptions_one_distractor random _ "Stanley" "market"); [reflexivity | discriminate|].
  intros w [<- | [<- | [<- | []]]]; reflexivity.
Qed.

Lemma generateQuizFromExtract_options_witness :
  List.length (options eiffelQuestion) = 4
  /\ NoDup (map toLowerCase (options eiffelQuestion))
  /\ In (toLowerCase (answer eiffelQuestion)) (map toLowerCase (options eiffelQuestion))
  /\ In (answer eiffelQuestion) (options eiffelQuestion).
Proof.
  apply (generateQuizFromExtract_options demoRandom 100 "Eiffel Tower" eiffelExtract
           eiffelQuiz eiffelQuestion).
  - vm_compute. reflexivity.
  - simpl. left. reflexivity.
Defined.

Lemma generateQuizFromExtract_answer_length_witness :
  5 <= length (answer eiffelQuestion)
  /\ exists w, 5 < length w
               /\ answer eiffelQuestion = stripTrailingPunct w
               /\ length w <= S (length (answer eiffelQuestion)).
Proof.
  apply (generateQuizFromExtract_answer_length demoRandom 100 "Eiffel Tower" eiffelExtract
           eiffelQuiz eiffelQuestion).
  - vm_compute. reflexivity.
  - simpl. left. reflexivity.
Defined.

Lemma generateQuizFromExtract_question_witness :
  exists sentence pre post,
    In sentence (poolOf eiffelExtract)
    /\ trim sentence = pre ++ answer eiffelQuestion ++ post
    /\ question eiffelQuestion = pre ++ blank ++ post
    /\ (forall pre' post', trim sentence = pre' ++ answer eiffelQuestion ++ post' ->
                           length pre <= length pre')
    /\ (startsWith blank (take 7 (answer eiffelQuestion)) = false ->
        startsWith (drop (length pre) (question eiffelQuestion)) (answer eiffelQuestion)
        = false).
Proof.
  apply (generateQuizFromExtract_question demoRandom 100 "Eiffel Tower" eiffelExtract
           eiffelQuiz eiffelQuestion).
  - vm_compute. reflexivity.
  - simpl. left. reflexivity.
Defined.

(** C3 as stated fails: when the answer is itself a run of seven
    underscores, the question is the sentence unchanged and still reads the
    answer at the masked place. *)
Lemma generateQuizFromExtract_question_unmasked :
  ~ (forall (random : nat -> Z) (fuel : nat) (title extract : string)
            (quiz : list WikiQuizQuestion) (q : WikiQuizQuestion),
        run (generateQuizFromExtract random fuel title extract) = Some quiz ->
        In q quiz ->
        exists sentence pre post,
          In sentence (poolOf extract)
          /\ trim sentence = pre ++ answer q ++ post
          /\ question q = pre ++ blank ++ post
          /\ (forall pre' post', trim sentence = pre' ++ answer q ++ post' ->
                                 length pre <= length pre')
          /\ startsWith (drop (length pre) (question q)) (answer q) = false).
Proof.
  intros H.
  assert (Hrun : run (generateQuizFromExtract demoRandom 100 "Quiz" underscoreExtract)
                 = Some [underscoreQuestion]) by (vm_compute; reflexivity).
  destruct (H demoRandom 100 "Quiz" underscoreExtract [underscoreQuestion]
              underscoreQuestion Hrun (or_introl eq_refl))
    as (sentence & pre & post & _ & _ & Hq & _ & Hmask).
  rewrite Hq, drop_append in Hmask.
  change (answer underscoreQuestion) with blank in Hmask.
  rewrite startsWith_app in Hmask. discriminate.
Qed.

(** The run that the lemma above uses: nothing is masked. *)
Example underscore_run :
  run (generateQuizFromExtract demoRandom 100 "Quiz" underscoreExtract)
  = Some [underscoreQuestion]
  /\ question underscoreQuestion = trim underscoreExtract
  /\ includes (question underscoreQuestion) (answer underscoreQuestion) = true.
Proof. repeat split; vm_compute; reflexivity. Qed.

(** C7: on [doubledCommaExtract] the question returned has the answer
    [Westphalia,], which ends with a comma: of the two commas that follow
    the word only the last one is removed. *)
Theorem generateQuizFromExtract_answer_keeps_comma :
  run (generateQuizFromExtract demoRandom 100 "Peace" doubledCommaExtract)
  = Some [westphaliaQuestion]
  /\ lastChar (answer westphaliaQuestion) = Some ","%char.
Proof. split; vm_compute; reflexivity. Qed.

(** What holds of the answer's end in general: the answer is a word of the
    sentence, whole when the word does not end with a comma, a full stop
    or a semicolon, and less that one last character when it does. *)
Lemma generateQuizFromExtract_answer_stripped (random : nat -> Z) (fuel : nat)
    (title extract : string) (quiz : list WikiQuizQuestion) (q : WikiQuizQuestion) :
  run (generateQuizFromExtract random fuel title extract) = Some quiz ->
  In q quiz ->
  exists sentence w,
    In sentence (poolOf extract)
    /\ In w (split isSpace (trim sentence))
    /\ ((answer q = w
         /\ exists c, lastChar w = Some c /\ isTrailingPunct c = false)
        \/ (exists c, w = answer q ++ String c EmptyString /\ isTrailingPunct c = true)).
Proof.
  intros Hrun Hq.
  destruct (generateQuizFromExtract_sound random _ _ _ _ _ Hrun Hq) as (s & Hs & Hp).
  destruct (producedFrom_answer random _ _ _ _ _ Hp) as (w & Hw & Hlen & Ha).
  exists s, w. split; [exact Hs|]. split; [exact Hw|].
  rewrite Ha.
  destruct (stripTrailingPunct_spec w) as [[E [-> | H]] | H]; auto.
  cbn in Hlen. lia.
Qed.

(** * Further properties of the history store *)

Section HistoryStore.

Import App.

Lemma sameRecord_sym (v t : HistoryItem) : sameRecord v t = sameRecord t v.
Proof.
  unfold sameRecord. now rewrite (String.eqb_sym (url t)), (String.eqb_sym (date t)).
Qed.

Lemma forallb_fresh (v : HistoryItem) (l : list HistoryItem) :
  ~ In (recordKey v) (map recordKey l) ->
  forallb (fun x => negb (sameRecord v x)) l = true.
Proof.
  intros Hnot. apply List.forallb_forall. intros x Hx.
  apply negb_true_iff. destruct (sameRecord v x) eqn:E; [|reflexivity].
  apply sameRecord_key in E. exfalso. apply Hnot. rewrite <- E. now apply List.in_map.
Qed.

(** In a list whose later part has distinct keys, the filter of
    [saveToHistory] keeps of that part the records whose key is not the one
    of the first record. *)
Lemma filterFrom_distinct (item : HistoryItem) : forall rest earlier,
  NoDup (map recordKey (earlier ++ rest)%list) ->
  filterFrom (fun v i a => (findIndex (sameRecord v) a =? i)%Z)
    ((item :: earlier) ++ rest)%list (Z.of_nat (List.length (item :: earlier))) rest
  = filter (fun h => negb (sameRecord item h)) rest.
Proof.
  induction rest as [|v rest IH]; intros earlier Hnd; [reflexivity|].
  cbn [filterFrom filter].
  assert (Hv : sameRecord v v = true) by (now apply sameRecord_key).
  assert (Hearlier : forallb (fun x => negb (sameRecord v x)) earlier = true).
  { apply forallb_fresh. rewrite List.map_app in Hnd. cbn [map] in Hnd.
    apply List.NoDup_remove_2 in Hnd. intros Hin. apply Hnd.
    apply List.in_app_iff. now left. }
  assert (Hnext : filterFrom (fun v i a => (findIndex (sameRecord v) a =? i)%Z)
                    ((item :: earlier) ++ v :: rest)%list
                    (Z.of_nat (List.length (item :: earlier)) + 1)%Z rest
                  = filter (fun h => negb (sameRecord item h)) rest).
  { specialize (IH (earlier ++ [v])%list).
    cbn [List.app] in IH |- *. rewrite <- !List.app_assoc in IH. cbn [List.app] in IH.
    replace (Z.of_nat (List.length (item :: earlier ++ [v])))
      with (Z.of_nat (List.length (item :: earlier)) + 1)%Z in IH
      by (cbn [List.length]; rewrite List.length_app; cbn [List.length]; lia).
    apply IH. exact Hnd. }
  rewrite Hnext.
  destruct (Z.eqb_spec (findIndex (sameRecord v) ((item :: earlier) ++ v :: rest)%list)
              (Z.of_nat (List.length (item :: earlier)))) as [E | E].
  - apply (findIndex_app _ (item :: earlier) v rest Hv) in E.
    cbn [forallb] in E. apply andb_true_iff in E as [E _].
    rewrite sameRecord_sym in E. now rewrite E.
  - destruct (sameRecord item v) eqn:Hs; [reflexivity|].
    exfalso. apply E. apply (findIndex_app _ (item :: earlier) v rest Hv).
    cbn [forallb]. rewrite sameRecord_sym, Hs. exact Hearlier.
Qed.

Lemma newHistoryOf_head (history : list HistoryItem) (item : HistoryItem) :
  newHistoryOf history item
  = item :: filterFrom (fun v i a => (findIndex (sameRecord v) a =? i)%Z)
              (item :: history) 1%Z history.
Proof.
  unfold newHistoryOf, filterIndexed. cbn [filterFrom findIndex].
  replace (sameRecord item item) with true by (symmetry; now apply sameRecord_key).
  reflexivity.
Qed.

Lemma newHistoryOf_distinct (history : list HistoryItem) (item : HistoryItem) :
  NoDup (map recordKey history) ->
  newHistoryOf history item
  = item :: filter (fun h => negb (sameRecord item h)) history.
Proof.
  intros Hnd. rewrite newHistoryOf_head. f_equal.
  exact (filterFrom_distinct item history [] Hnd).
Qed.

Lemma newHistoryOf_keys (history : list HistoryItem) (item : HistoryItem) :
  NoDup (map recordKey (newHistoryOf history item)).
Proof. exact (proj1 (filterFrom_keys [] (item :: history))). Qed.

Lemma filter_fresh (item : HistoryItem) (l : list HistoryItem) :
  ~ In (recordKey item) (map recordKey l) ->
  filter (fun h => negb (sameRecord item h)) l = l.
Proof.
  induction l as [|x l IH]; intros Hnot; [reflexivity|]. cbn [filter].
  destruct (sameRecord item x) eqn:E; cbn [negb].
  - apply sameRecord_key in E. exfalso. apply Hnot. left. exact E.
  - rewrite IH; [reflexivity|]. intros H. apply Hnot. now right.
Qed.

(** Every key met in the list is met before the place the filter has
    reached, or is kept by the filter. *)
Lemma filterFrom_covers : forall rest pre v,
  In v rest ->
  In (recordKey v) (map recordKey pre)
  \/ In (recordKey v)
       (map recordKey
          (filterFrom (fun v i a => (findIndex (sameRecord v) a =? i)%Z)
             (pre ++ rest)%list (Z.of_nat (List.length pre)) rest)).
Proof.
  induction rest as [|v0 rest IH]; intros pre v Hv; [contradiction|].
  cbn [filterFrom].
  assert (Hv0 : sameRecord v0 v0 = true) by (now apply sameRecord_key).
  assert (Hhead : In (recordKey v0) (map recordKey pre)
                  \/ (findIndex (sameRecord v0) (pre ++ v0 :: rest)%list
                      =? Z.of_nat (List.length pre))%Z = true).
  { destruct (Z.eqb_spec (findIndex (sameRecord v0) (pre ++ v0 :: rest)%list)
                (Z.of_nat (List.length pre))) as [E | E]; [now right|].
    left. destruct (forallb (fun x => negb (sameRecord v0 x)) pre) eqn:Hf.
    - exfalso. apply E. now apply (findIndex_app _ pre v0 rest Hv0).
    - assert (Hex : existsb (sameRecord v0) pre = true).
      { clear -Hf. induction pre as [|x pre IHp]; [discriminate|].
        cbn in *. destruct (sameRecord v0 x); [reflexivity | now apply IHp]. }
      apply List.existsb_exists in Hex as (x & Hx & Hs).
      apply sameRecord_key in Hs. rewrite <- Hs. now apply List.in_map. }
  assert (Hkey : forall w, recordKey w = recordKey v0 ->
             In (recordKey w) (map recordKey pre)
             \/ In (recordKey w)
                  (map recordKey
                     (if (findIndex (sameRecord v0) (pre ++ v0 :: rest)%list
                          =? Z.of_nat (List.length pre))%Z
                      then v0 :: filterFrom (fun v i a => (findIndex (sameRecord v) a =? i)%Z)
                                   (pre ++ v0 :: rest)%list (Z.of_nat (List.length pre) + 1)%Z rest
                      else filterFrom (fun v i a => (findIndex (sameRecord v) a =? i)%Z)
                             (pre ++ v0 :: rest)%list (Z.of_nat (List.length pre) + 1)%Z rest))).
  { intros w Hw. rewrite Hw. destruct Hhead as [H | H]; [now left|].
    right. rewrite H. now left. }
  destruct Hv as [<- | Hv]; [now apply Hkey|].
  specialize (IH (pre ++ [v0])%list v Hv).
  rewrite <- List.app_assoc, List.length_app in IH. cbn [List.app List.length] in IH.
  replace (Z.of_nat (List.length pre + 1)) with (Z.of_nat (List.length pre) + 1)%Z in IH by lia.
  destruct IH as [IH | IH].
  - rewrite List.map_app, List.in_app_iff in IH. cbn in IH.
    destruct IH as [IH | [IH | []]]; [now left|]. now apply Hkey.
  - right. destruct (_ =? _)%Z; [right|]; exact IH.
Qed.

End HistoryStore.

Section HistoryExtras.

Import App.

(** X1: the record just saved is the first entry of the list that is
    persisted and handed to [setHistory]. *)
Theorem saveToHistory_newest_first (item : HistoryItem) (st : Store) :
  exists older,
    persisted (saveToHistory item st) = Some (item :: older)
    /\ history (saveToHistory item st) = item :: older.
Proof.
  unfold saveToHistory. cbn [persisted history]. rewrite newHistoryOf_head. eauto.
Qed.

(** X2: when the prior history has no two entries with the same [url] and
    [date], saving a record puts it in front of the prior entries less the
    one that has its [url] and [date]; when no prior entry has them, the
    prior list is kept whole. *)
Theorem saveToHistory_replaces (item : HistoryItem) (st : Store) :
  NoDup (map recordKey (history st)) ->
  persisted (saveToHistory item st)
    = Some (item :: filter (fun h => negb (sameRecord item h)) (history st))
  /\ (~ In (recordKey item) (map recordKey (history st)) ->
      persisted (saveToHistory item st) = Some (item :: history st)).
Proof.
  intros Hnd. unfold saveToHistory. cbn [persisted].
  rewrite (newHistoryOf_distinct _ _ Hnd). split; [reflexivity|].
  intros Hnew. now rewrite (filter_fresh _ _ Hnew).
Qed.

(** X3: saving the same record a second time changes nothing. *)
Theorem saveToHistory_idempotent (item : HistoryItem) (st : Store) :
  saveToHistory item (saveToHistory item st) = saveToHistory item st.
Proof.
  unfold saveToHistory. cbn [history].
  pose proof (newHistoryOf_keys (history st) item) as Hnd.
  rewrite (newHistoryOf_distinct _ _ Hnd).
  rewrite newHistoryOf_head in Hnd |- *.
  cbn [filter]. replace (sameRecord item item) with true
    by (symmetry; now apply sameRecord_key).
  cbn [negb map] in Hnd |- *. apply List.NoDup_cons_iff in Hnd as [Hnot _].
  now rewrite (filter_fresh _ _ Hnot).
Qed.

(** X4: saving loses no [url]-[date] pair and invents no entry: every pair
    of the new record and of the prior history is the pair of an entry
    persisted, and every entry persisted is the new record or a prior
    entry. *)
Theorem saveToHistory_keeps_keys (item : HistoryItem) (st : Store) :
  exists newHistory,
    persisted (saveToHistory item st) = Some newHistory
    /\ (forall h, In h (item :: history st) ->
                  In (recordKey h) (map recordKey newHistory))
    /\ (forall h, In h newHistory -> In h (item :: history st)).
Proof.
  exists (newHistoryOf (history st) item). split; [reflexivity|]. split.
  - intros h Hh.
    destruct (filterFrom_covers (item :: history st) [] h Hh) as [[] | H]. exact H.
  - intros h Hh. exact (proj1 (proj2 (filterFrom_keys [] (item :: history st)) h Hh)).
Qed.

End HistoryExtras.

(** * Properties of the score badge *)

Lemma append_empty_r (s : string) : s ++ EmptyString = s.
Proof. induction s as [|c s IH]; cbn; [reflexivity | now rewrite IH]. Qed.

Lemma includes_self (s : string) : includes s s = true.
Proof.
  pose proof (includes_app EmptyString s EmptyString) as H.
  cbn [String.append] in H. now rewrite append_empty_r in H.
Qed.

Lemma includes_empty (s : string) : includes s EmptyString = true.
Proof. unfold includes. rewrite indexOf_unfold. now destruct s. Qed.

Lemma findExisting_Some (history : list App.HistoryItem) (u : string) (e : App.HistoryItem) :
  In e history ->
  includes (App.url e) u || includes u (App.url e) = true ->
  exists first, View.findExisting history u = Some first.
Proof.
  intros He Hm. unfold View.findExisting.
  destruct (find _ history) as [first|] eqn:Hf; [eauto|].
  pose proof (List.find_none _ _ Hf e He) as Hn. cbv beta in Hn. congruence.
Qed.

(** X5: once a result is saved under a non-empty URL, the badge computed
    for that URL shows the score just saved. *)
Theorem lastScore_after_save (item : App.HistoryItem) (st : View.Session) :
  App.url item <> EmptyString ->
  View.lastScoreEffect (App.url item) (View.history (View.saveToHistory item st))
  = Some (App.score item).
Proof.
  intros Hne. unfold View.lastScoreEffect, View.saveToHistory. cbn [View.history].
  unfold App.saveToHistory. cbn [App.history]. rewrite newHistoryOf_head.
  rewrite (truthy_Some_nonempty _ Hne).
  unfold View.findExisting. cbn [find]. now rewrite includes_self.
Qed.

(** X6: an entry saved with an empty URL matches every input: whatever
    non-empty text is typed, the badge is shown. *)
Theorem lastScore_empty_url_entry (history : list App.HistoryItem)
    (e : App.HistoryItem) (inputUrl : string) :
  In e history ->
  App.url e = EmptyString ->
  inputUrl <> EmptyString ->
  exists shown, View.lastScoreEffect inputUrl history = Some shown.
Proof.
  intros He Hurl Hne. unfold View.lastScoreEffect.
  rewrite (truthy_Some_nonempty _ Hne).
  destruct (findExisting_Some history inputUrl e He) as (first & ->); [|eauto].
  now rewrite Hurl, includes_empty, orb_true_r.
Qed.

(** * Further properties of the quiz generator *)

Lemma occurs_trans (s t u : string) :
  (exists pre post, s = pre ++ t ++ post) ->
  (exists pre post, t = pre ++ u ++ post) ->
  exists pre post, s = pre ++ u ++ post.
Proof.
  intros (a & b & ->) (c & d & ->). exists (a ++ c), (d ++ b).
  now rewrite !append_assoc.
Qed.

Lemma every_occurs p (s t : string) :
  every p s = true -> (exists pre post, s = pre ++ t ++ post) -> every p t = true.
Proof.
  intros H (a & b & ->). rewrite !every_append in H.
  apply andb_true_iff in H as [_ H]. now apply andb_true_iff in H as [H _].
Qed.

Lemma trimStart_occurs (s : string) : exists pre, s = pre ++ trimStart s.
Proof.
  induction s as [|c s (pre & IH)]; [now exists EmptyString|]. cbn [trimStart].
  destruct (isWhiteSpace c); [|now exists EmptyString].
  exists (String c pre). cbn. now rewrite <- IH.
Qed.

Lemma trimEnd_occurs (s : string) : exists post, s = trimEnd s ++ post.
Proof.
  induction s as [|c s (post & IH)]; [now exists EmptyString|]. cbn [trimEnd].
  destruct (trimEnd s) as [|d t] eqn:Ht.
  - destruct (isWhiteSpace c).
    + now exists (String c s).
    + exists post. cbn in *. now rewrite <- IH.
  - exists post. cbn [String.append] in *. now rewrite <- IH.
Qed.

Lemma trim_occurs (s : string) : exists pre post, s = pre ++ trim s ++ post.
Proof.
  unfold trim. destruct (trimStart_occurs s) as (pre & E).
  destruct (trimEnd_occurs (trimStart s)) as (post & E').
  exists pre, post. now rewrite <- E', <- E.
Qed.

Lemma trim_length (s : string) : length (trim s) <= length s.
Proof.
  destruct (trim_occurs s) as (pre & post & E). rewrite E at 2.
  rewrite !length_append. lia.
Qed.

(** A sentence of the pool is a piece of a paragraph, which is a line of
    the extract; its trimmed length lies strictly between 50 and 200. *)
Lemma poolOf_spec (extract sentence : string) :
  In sentence (poolOf extract) ->
  50 < length (trim sentence) < 200
  /\ every (fun c => negb (isSentenceEnd c)) sentence = true
  /\ every (fun c => negb (isNewline c)) sentence = true
  /\ exists pre post, extract = pre ++ sentence ++ post.
Proof.
  unfold poolOf, paragraphsOf. intros H.
  apply List.filter_In in H as [H Hlen].
  apply andb_true_iff in Hlen as [H1 H2].
  apply Nat.ltb_lt in H1. apply Nat.ltb_lt in H2.
  apply List.in_flat_map in H as (p & Hp & Hs).
  apply List.filter_In in Hp as [Hp _].
  destruct (split_pieces _ _ _ Hp) as [Hnl Hocc].
  destruct (split_pieces _ _ _ Hs) as [Hend Hocc'].
  repeat split; auto.
  - exact (every_occurs _ _ _ Hnl Hocc').
  - exact (occurs_trans _ _ _ Hocc Hocc').
Qed.

Section GeneratorExtras.

Variable random : nat -> Z.

Lemma forSentences_length fuel title extract pool : forall quiz k quiz' k',
  forSentences random fuel title extract pool quiz k = Some (quiz', k') ->
  List.length quiz <= 5 -> List.length quiz' <= 5.
Proof.
  induction pool as [|sentence pool IH]; intros quiz k quiz' k' H Hlen;
    cbn [forSentences] in H.
  - now gen_inv H.
  - destruct (Nat.leb_spec 5 (List.length quiz)); [now gen_inv H|].
    destruct (0 <? List.length (targetWordsOf title (trim sentence))).
    + gen_inv H. gen_inv H. gen_inv H.
      apply IH in H; [exact H|]. rewrite List.length_app. cbn. lia.
    + now apply IH in H.
Qed.

(** The words the loop adds are stripped words of its pool. *)
Lemma sampleOptions_extras fuel allWords : forall options k sampled k',
  sampleOptions random fuel allWords options k = Some (sampled, k') ->
  exists extra,
    sampled = (options ++ extra)%list
    /\ Forall (fun f => exists w, In w allWords /\ f = stripTrailingPunct w) extra.
Proof.
  induction fuel as [|fuel IH]; intros options k sampled k' H;
    cbn [sampleOptions] in H;
    destruct ((List.length options <? 4) && (0 <? List.length allWords)) eqn:Hg;
    try discriminate;
    try (gen_inv H; exists []; split; [now rewrite List.app_nil_r | constructor]).
  apply andb_true_iff in Hg as [_ Hpool]. apply Nat.ltb_lt in Hpool.
  gen_inv H. destruct (randomIndex_lt random _ _ _ _ Hpool Hm) as [Hi _].
  destruct (hasOption options (stripTrailingPunct (nth a allWords EmptyString)));
    cbn [negb] in H.
  - now apply IH in H.
  - apply IH in H as (extra & -> & Hall).
    exists (stripTrailingPunct (nth a allWords EmptyString) :: extra).
    split; [now rewrite <- List.app_assoc|].
    constructor; [|exact Hall]. eexists. split; [|reflexivity]. now apply List.nth_In.
Qed.

End GeneratorExtras.

Lemma run_generate_length (random : nat -> Z) (fuel : nat)
    (title extract : string) (quiz : list WikiQuizQuestion) :
  run (generateQuizFromExtract random fuel title extract) = Some quiz ->
  List.length quiz <= 5.
Proof.
  unfold run, generateQuizFromExtract. intros H.
  destruct (bind _ _ 0) as [[quiz0 k0]|] eqn:Hb; [|discriminate].
  inversion H; subst quiz0; clear H. gen_inv Hb.
  apply (forSentences_length random _ _ _ _ _ _ _ _ Hb). cbn. lia.
Qed.

(** X7: the generator never returns more than 5 questions. *)
Theorem generateQuizFromExtract_at_most_5 (random : nat -> Z) (fuel : nat)
    (title extract : string) (quiz : list WikiQuizQuestion) :
  run (generateQuizFromExtract random fuel title extract) = Some quiz ->
  List.length quiz <= 5.
Proof. apply run_generate_length. Qed.

(** X8: when no line of the extract has more than 100 characters once
    trimmed, the generator returns, and returns no question, whatever the
    draws and the title. *)
Theorem generateQuizFromExtract_short_lines (random : nat -> Z) (fuel : nat)
    (title extract : string) :
  (forall p, In p (split isNewline extract) -> length (trim p) <= 100) ->
  run (generateQuizFromExtract random fuel title extract) = Some [].
Proof.
  intros Hshort.
  assert (Hpar : paragraphsOf extract = []).
  { unfold paragraphsOf. induction (split isNewline extract) as [|p ps IH]; [reflexivity|].
    cbn [filter]. destruct (Nat.ltb_spec 100 (length (trim p))) as [Hlt | _].
    - specialize (Hshort p (or_introl eq_refl)). lia.
    - apply IH. intros p' Hp'. apply Hshort. now right. }
  unfold run, generateQuizFromExtract, poolOf. rewrite Hpar. reflexivity.
Qed.

(** X9: the answer of every question returned is a piece of the extract,
    free of spaces, of line breaks and of the marks that end a sentence. *)
Theorem generateQuizFromExtract_answer_in_extract (random : nat -> Z) (fuel : nat)
    (title extract : string) (quiz : list WikiQuizQuestion) (q : WikiQuizQuestion) :
  run (generateQuizFromExtract random fuel title extract) = Some quiz ->
  In q quiz ->
  includes extract (answer q) = true
  /\ every (fun c => negb (isSpace c)) (answer q) = true
  /\ every (fun c => negb (isNewline c)) (answer q) = true
  /\ every (fun c => negb (isSentenceEnd c)) (answer q) = true.
Proof.
  intros Hrun Hq.
  destruct (generateQuizFromExtract_sound random _ _ _ _ _ Hrun Hq) as (s & Hs & Hp).
  destruct (producedFrom_answer random _ _ _ _ _ Hp) as (w & Hw & _ & Ha).
  destruct (poolOf_spec _ _ Hs) as (_ & Hend & Hnl & Hocc).
  destruct (split_pieces _ _ _ Hw) as [Hsp Hocc'].
  assert (Hstrip : exists pre post, w = pre ++ answer q ++ post).
  { destruct (stripTrailingPunct_prefix w) as (rest & E & _).
    exists EmptyString, rest. now rewrite Ha. }
  assert (Hin_s : exists pre post, s = pre ++ answer q ++ post).
  { apply (occurs_trans _ _ _ (trim_occurs s)).
    exact (occurs_trans _ _ _ Hocc' Hstrip). }
  split.
  - destruct (occurs_trans _ _ _ Hocc Hin_s) as (pre & post & ->). apply includes_app.
  - split; [exact (every_occurs _ _ _ Hsp Hstrip)|].
    split; [exact (every_occurs _ _ _ Hnl Hin_s) | exact (every_occurs _ _ _ Hend Hin_s)].
Qed.

(** X10: question and answer together have 7 characters more than the
    trimmed sentence they come from, that is between 58 and 206; the
    question alone has fewer than 202. *)
Theorem generateQuizFromExtract_question_length (random : nat -> Z) (fuel : nat)
    (title extract : string) (quiz : list WikiQuizQuestion) (q : WikiQuizQuestion) :
  run (generateQuizFromExtract random fuel title extract) = Some quiz ->
  In q quiz ->
  (exists sentence, In sentence (poolOf extract)
                    /\ length (question q) + length (answer q)
                       = length (trim sentence) + 7)
  /\ 57 < length (question q) + length (answer q) < 207
  /\ length (question q) < 202.
Proof.
  intros Hrun Hq.
  destruct (generateQuizFromExtract_sound random _ _ _ _ _ Hrun Hq) as (s & Hs & Hp).
  destruct (producedFrom_answer random _ _ _ _ _ Hp) as (w & Hw & Hlen & Ha).
  pose proof (stripTrailingPunct_length w) as Hstrip. rewrite <- Ha in Hstrip.
  destruct (poolOf_spec _ _ Hs) as (Hbounds & _).
  destruct Hp as (_ & _ & _ & _ & _ & _ & Hquestion & _).
  assert (Hocc : exists pre post, trim s = pre ++ answer q ++ post).
  { destruct (split_pieces _ _ _ Hw) as [_ Hocc].
    apply (occurs_trans _ _ _ Hocc).
    destruct (stripTrailingPunct_prefix w) as (rest & E & _).
    exists EmptyString, rest. now rewrite Ha. }
  destruct (replace_first_occurrence (trim s) (answer q) blank Hocc)
    as (pre & post & E & Hr & _).
  assert (Hsum : length (question q) + length (answer q) = length (trim s) + 7).
  { rewrite Hquestion, Hr, E, !length_append. cbn [blank length]. lia. }
  split; [now exists s|]. lia.
Qed.

Section OptionsShape.

Variable random : nat -> Z.

(** The two shapes of the options: the answer with the three placeholders
    when the extract offers no distractor, the answer with three stripped
    words of the pool otherwise. *)
Lemma producedFrom_options_shape fuel title extract sentence q :
  producedFrom random fuel title extract sentence q ->
  (allWordsOf extract (answer q) = []
   /\ Permutation [answer q; "Option 1"; "Option 2"; "Option 3"] (options q))
  \/ (allWordsOf extract (answer q) <> []
      /\ exists w1 w2 w3,
           Permutation [answer q; stripTrailingPunct w1; stripTrailingPunct w2;
                        stripTrailingPunct w3] (options q)
           /\ Forall (fun w => In w (allWordsOf extract (answer q))) [w1; w2; w3]).
Proof.
  intros (w & sampled & k & k' & _ & _ & _ & Hs & Hperm).
  destruct (allWordsOf extract (answer q)) as [|x xs] eqn:Hpool.
  - left. split; [reflexivity|].
    rewrite sampleOptions_empty_pool in Hs. inversion Hs; subst sampled. exact Hperm.
  - right. split; [discriminate|]. rewrite <- Hpool in *.
    pose proof (sampleOptions_extras random _ _ _ _ _ _ Hs) as (extra & E & Hall).
    apply sampleOptions_sound in Hs; [|cbn; lia | repeat constructor; cbn; tauto].
    destruct Hs as (_ & Hle & _ & [Hfour | [Hnil _]]); [|congruence].
    assert (Hlen : List.length sampled = 4) by lia.
    assert (Hpad : padOptions 4 sampled = sampled) by (cbn [padOptions]; now rewrite Hlen).
    rewrite Hpad in Hperm. subst sampled.
    destruct extra as [|f1 [|f2 [|f3 [|f4 extra]]]]; cbn in Hlen; try lia.
    inversion Hall as [|? ? (w1 & Hw1 & ->) Hall1]; subst.
    inversion Hall1 as [|? ? (w2 & Hw2 & ->) Hall2]; subst.
    inversion Hall2 as [|? ? (w3 & Hw3 & ->) _]; subst.
    exists w1, w2, w3. split; [exact Hperm|]. repeat constructor; assumption.
Qed.

End OptionsShape.

Lemma allWordsOf_spec (extract target w : string) :
  In w (allWordsOf extract target) ->
  In w (splitWhiteSpace extract)
  /\ 5 < length w
  /\ toLowerCase w <> toLowerCase target.
Proof.
  unfold allWordsOf. intros H. apply List.filter_In in H as [H1 H2].
  apply andb_true_iff in H2 as [H2 H3].
  apply Nat.ltb_lt in H2. apply negb_true_iff in H3. apply String.eqb_neq in H3. auto.
Qed.

(** X11: when the extract has no word of more than 5 characters other than
    the answer (up to case), the options are the answer and the three
    placeholders [Option 1], [Option 2], [Option 3], in some order. *)
Theorem generateQuizFromExtract_placeholders (random : nat -> Z) (fuel : nat)
    (title extract : string) (quiz : list WikiQuizQuestion) (q : WikiQuizQuestion) :
  run (generateQuizFromExtract random fuel title extract) = Some quiz ->
  In q quiz ->
  allWordsOf extract (answer q) = [] ->
  Permutation [answer q; "Option 1"; "Option 2"; "Option 3"] (options q).
Proof.
  intros Hrun Hq Hpool.
  destruct (generateQuizFromExtract_sound random _ _ _ _ _ Hrun Hq) as (s & _ & Hp).
  destruct (producedFrom_options_shape random _ _ _ _ _ Hp) as [[_ H] | [H _]];
    [exact H | contradiction].
Qed.

(** X12: when the extract has such words, no placeholder is used: the
    options are, in some order, the answer and three words of the extract,
    each longer than 5, different from the answer up to case, and less its
    last character when that is a comma, a full stop or a semicolon. *)
Theorem generateQuizFromExtract_distractors (random : nat -> Z) (fuel : nat)
    (title extract : string) (quiz : list WikiQuizQuestion) (q : WikiQuizQuestion) :
  run (generateQuizFromExtract random fuel title extract) = Some quiz ->
  In q quiz ->
  allWordsOf extract (answer q) <> [] ->
  exists w1 w2 w3,
    Permutation [answer q; stripTrailingPunct w1; stripTrailingPunct w2;
                 stripTrailingPunct w3] (options q)
    /\ Forall (fun w => In w (splitWhiteSpace extract)
                        /\ 5 < length w
                        /\ toLowerCase w <> toLowerCase (answer q)) [w1; w2; w3].
Proof.
  intros Hrun Hq Hpool.
  destruct (generateQuizFromExtract_sound random _ _ _ _ _ Hrun Hq) as (s & _ & Hp).
  destruct (producedFrom_options_shape random _ _ _ _ _ Hp)
    as [[H _] | (_ & w1 & w2 & w3 & Hperm & Hall)]; [contradiction|].
  exists w1, w2, w3. split; [exact Hperm|].
  eapply List.Forall_impl; [|exact Hall]. intros w Hw. now apply allWordsOf_spec.
Qed.

(** X13: every option of every question returned has at least 5
    characters. *)
Theorem generateQuizFromExtract_option_length (random : nat -> Z) (fuel : nat)
    (title extract : string) (quiz : list WikiQuizQuestion) (q : WikiQuizQuestion)
    (o : string) :
  run (generateQuizFromExtract random fuel title extract) = Some quiz ->
  In q quiz ->
  In o (options q) ->
  5 <= length o.
Proof.
  intros Hrun Hq Ho.
  destruct (generateQuizFromExtract_sound random _ _ _ _ _ Hrun Hq) as (s & _ & Hp).
  destruct (producedFrom_answer random _ _ _ _ _ Hp) as (w & _ & Hlen & Ha).
  pose proof (stripTrailingPunct_length w) as Hw. rewrite <- Ha in Hw.
  destruct (producedFrom_options_shape random _ _ _ _ _ Hp)
    as [[_ Hperm] | (_ & w1 & w2 & w3 & Hperm & Hall)];
    apply (Permutation_in _ (Permutation_sym Hperm)) in Ho.
  - destruct Ho as [<- | [<- | [<- | [<- | []]]]]; cbn; lia.
  - assert (Hstrip : forall x, In x (allWordsOf extract (answer q)) ->
                               5 <= length (stripTrailingPunct x)).
    { intros x Hx. apply allWordsOf_spec in Hx as (_ & Hx & _).
      pose proof (stripTrailingPunct_length x). lia. }
    inversion Hall as [|? ? H1 Hall1]; subst.
    inversion Hall1 as [|? ? H2 Hall2]; subst.
    inversion Hall2 as [|? ? H3 _]; subst.
    destruct Ho as [<- | [<- | [<- | [<- | []]]]]; auto. lia.
Qed.

(** X14: how the answer is chosen.  It is a word of the sentence less at
    most a last punctuation mark; the word starts with a capital A-Z, has
    more than 5 characters and does not contain, up to case, the first word
    of the title, or else the sentence has no such word and the word has
    more than 6 characters. *)
Theorem generateQuizFromExtract_answer_choice (random : nat -> Z) (fuel : nat)
    (title extract : string) (quiz : list WikiQuizQuestion) (q : WikiQuizQuestion) :
  run (generateQuizFromExtract random fuel title extract) = Some quiz ->
  In q quiz ->
  let titleWord := hd EmptyString (split isSpace (toLowerCase title)) in
  exists sentence w,
    In sentence (poolOf extract)
    /\ In w (split isSpace (trim sentence))
    /\ answer q = stripTrailingPunct w
    /\ ((testLeadingUpper w = true
         /\ 5 < length w
         /\ includes (toLowerCase w) titleWord = false)
        \/ (6 < length w
            /\ forall w', In w' (split isSpace (trim sentence)) ->
                 (5 <? length w') && negb (includes (toLowerCase w') titleWord)
                 && testLeadingUpper w' = false)).
Proof.
  intros Hrun Hq titleWord.
  destruct (generateQuizFromExtract_sound random _ _ _ _ _ Hrun Hq) as (s & Hs & Hp).
  destruct Hp as (w & _ & _ & _ & Hw & Ha & _).
  exists s, w. split; [exact Hs|].
  unfold targetWordsOf in Hw. fold titleWord in Hw.
  set (words := filter (fun w0 => (5 <? length w0)
                                  && negb (includes (toLowerCase w0) titleWord)
                                  && testLeadingUpper w0)
                       (split isSpace (trim s))) in *.
  destruct (0 <? List.length words) eqn:Hlt.
  - apply List.filter_In in Hw as [Hin Hpref].
    apply andb_true_iff in Hpref as [Hpref Hup].
    apply andb_true_iff in Hpref as [Hlen Hnot].
    apply Nat.ltb_lt in Hlen. apply negb_true_iff in Hnot.
    split; [exact Hin|]. split; [exact Ha|]. now left.
  - apply List.filter_In in Hw as [Hin Hlen].
    split; [exact Hin|]. split; [exact Ha|]. right.
    apply Nat.ltb_lt in Hlen. split; [exact Hlen|].
    intros w' Hw'. destruct (_ && _ && _) eqn:Hpref; [|reflexivity].
    assert (Hin' : In w' words) by (apply List.filter_In; auto).
    destruct words; [contradiction | discriminate].
Qed.

(** X15: with a title that is empty or starts with a space, no word is
    preferred, so every answer comes from a word of more than 6 characters
    and has at least 6. *)
Theorem generateQuizFromExtract_empty_title (random : nat -> Z) (fuel : nat)
    (title extract : string) (quiz : list WikiQuizQuestion) (q : WikiQuizQuestion) :
  title = EmptyString \/ (exists rest, title = String " " rest) ->
  run (generateQuizFromExtract random fuel title extract) = Some quiz ->
  In q quiz ->
  6 <= length (answer q).
Proof.
  intros Htitle Hrun Hq.
  assert (Hword : hd EmptyString (split isSpace (toLowerCase title)) = EmptyString).
  { destruct Htitle as [-> | (rest & ->)]; reflexivity. }
  destruct (generateQuizFromExtract_sound random _ _ _ _ _ Hrun Hq) as (s & Hs & Hp).
  destruct Hp as (w & _ & _ & _ & Hw & Ha & _).
  unfold targetWordsOf in Hw. rewrite Hword in Hw.
  assert (Hnone : filter (fun w0 => (5 <? length w0)
                                    && negb (includes (toLowerCase w0) EmptyString)
                                    && testLeadingUpper w0)
                    (split isSpace (trim s)) = []).
  { clear. induction (split isSpace (trim s)) as [|x xs IH]; [reflexivity|].
    cbn [filter]. rewrite includes_empty, andb_false_r. exact IH. }
  rewrite Hnone in Hw. change (0 <? List.length (@nil string)) with false in Hw.
  cbv iota in Hw.
  apply List.filter_In in Hw as [_ Hlen]. apply Nat.ltb_lt in Hlen.
  pose proof (stripTrailingPunct_length w) as Hs'. rewrite <- Ha in Hs'. lia.
Qed.

Section TitleWord.

Variable random : nat -> Z.

Lemma forSentences_title fuel title1 title2 extract :
  hd EmptyString (split isSpace (toLowerCase title1))
  = hd EmptyString (split isSpace (toLowerCase title2)) ->
  forall pool quiz k,
    forSentences random fuel title1 extract pool quiz k
    = forSentences random fuel title2 extract pool quiz k.
Proof.
  intros Hword.
  assert (Htw : forall trimmed, targetWordsOf title1 trimmed = targetWordsOf title2 trimmed).
  { intros trimmed. unfold targetWordsOf. now rewrite Hword. }
  induction pool as [|sentence pool IH]; intros quiz k; cbn [forSentences]; [reflexivity|].
  rewrite Htw.
  destruct (5 <=? List.length quiz); [reflexivity|].
  destruct (0 <? List.length (targetWordsOf title2 (trim sentence))); [|apply IH].
  unfold bind.
  destruct (randomIndex random _ k) as [[i k1]|]; [|reflexivity].
  destruct (sampleOptions random fuel _ _ k1) as [[sampled k2]|]; [|reflexivity].
  destruct (sortRandom random _ k2) as [[shuffled k3]|]; [|reflexivity].
  apply IH.
Qed.

End TitleWord.

(** X16: of the title only the first word counts, and its case does not:
    two titles that agree on it give the same quiz for the same extract and
    the same draws. *)
Theorem generateQuizFromExtract_title_first_word (random : nat -> Z) (fuel : nat)
    (title1 title2 extract : string) :
  hd EmptyString (split isSpace (toLowerCase title1))
  = hd EmptyString (split isSpace (toLowerCase title2)) ->
  run (generateQuizFromExtract random fuel title1 extract)
  = run (generateQuizFromExtract random fuel title2 extract).
Proof.
  intros Hword. unfold run, generateQuizFromExtract, bind.
  destruct (sortRandom random (poolOf extract) 0) as [[pool k]|]; [|reflexivity].
  now rewrite (forSentences_title random fuel title1 title2 extract Hword).
Qed.

(** * Further properties of the article resolver *)

Lemma decode_encode_char (c : ascii) (rest : string) :
  Platform.decodeURIComponent
    ((if isUriUnreserved c then String c EmptyString
      else if nat_of_ascii c <? 128 then percentByte (nat_of_ascii c)
      else percentByte (192 + nat_of_ascii c / 64)
           ++ percentByte (128 + nat_of_ascii c mod 64)) ++ rest)
  = option_map (String c) (Platform.decodeURIComponent rest).
Proof. destruct c as [[] [] [] [] [] [] [] []]; reflexivity. Qed.

(** Decoding undoes encoding. *)
Lemma decode_encode (s : string) :
  Platform.decodeURIComponent (encodeURIComponent s) = Some s.
Proof.
  induction s as [|c s IH]; [reflexivity|].
  cbn [encodeURIComponent]. cbv zeta. now rewrite decode_encode_char, IH.
Qed.

Lemma encode_char_no_slash (c : ascii) :
  every (fun d => negb (Ascii.eqb "/" d))
    (if isUriUnreserved c then String c EmptyString
     else if nat_of_ascii c <? 128 then percentByte (nat_of_ascii c)
     else percentByte (192 + nat_of_ascii c / 64)
          ++ percentByte (128 + nat_of_ascii c mod 64)) = true.
Proof. destruct c as [[] [] [] [] [] [] [] []]; reflexivity. Qed.

Lemma encode_no_slash (s : string) :
  every (fun d => negb (Ascii.eqb "/" d)) (encodeURIComponent s) = true.
Proof.
  induction s as [|c s IH]; [reflexivity|].
  cbn [encodeURIComponent]. cbv zeta. now rewrite every_append, encode_char_no_slash, IH.
Qed.

Lemma encode_nonempty (s : string) :
  s <> EmptyString -> encodeURIComponent s <> EmptyString.
Proof.
  intros Hne He. pose proof (decode_encode s) as H. rewrite He in H.
  cbn in H. congruence.
Qed.

Lemma append_cancel_l (a x y : string) : a ++ x = a ++ y -> x = y.
Proof.
  induction a as [|c a IH]; intros H; [exact H|]. cbn in H. inversion H. auto.
Qed.

(** X17: whatever the input, the title asked of the API is the input
    itself or the non-empty title that [parseWikiUrl] found in it; it is
    empty only when the input is. *)
Theorem fetchParams_title newURL decode (titleOrUrl : string) :
  (titles (fetchParams newURL decode titleOrUrl) = titleOrUrl
   \/ (parseWikiUrl newURL decode titleOrUrl
         = Some (titles (fetchParams newURL decode titleOrUrl))
       /\ titles (fetchParams newURL decode titleOrUrl) <> EmptyString))
  /\ (titleOrUrl <> EmptyString ->
      titles (fetchParams newURL decode titleOrUrl) <> EmptyString).
Proof.
  unfold fetchParams, resolveTitle. cbn [titles].
  destruct (parseWikiUrl newURL decode titleOrUrl) as [[|c t]|]; cbn [truthy]; split; auto.
  - right. split; [reflexivity | discriminate].
  - discriminate.
Qed.

(** X18: on a host [<lang>.wikipedia.org], a path [/wiki/<Title>] whose
    title is not empty and has no slash gives [decodeURIComponent(Title)],
    the query string playing no part; the result is [null] when the
    decoding throws. *)
Theorem parseWikiUrl_article_title newURL decode (s : string) (u : URL)
    (lang Title : string) :
  newURL s = Some u ->
  hostname u = lang ++ ".wikipedia.org" ->
  pathname u = "/wiki/" ++ Title ->
  Title <> EmptyString ->
  every (fun c => negb (Ascii.eqb "/" c)) Title = true ->
  parseWikiUrl newURL decode s = decode Title.
Proof. apply parseWikiUrl_wiki_path. Qed.

(** X19: the link that [fetchWikiArticle] returns leads back to the
    article: when the URL parser reads it as the host [en.wikipedia.org]
    followed by a path it leaves as written, [parseWikiUrl] gives the
    title of the page again. *)
Theorem fetchWikiArticle_url_round_trip newURL axios_get
    (titleOrUrl : string) (a : Article) (u : URL) :
  fetchWikiArticle newURL Platform.decodeURIComponent axios_get titleOrUrl = Returned a ->
  title a <> EmptyString ->
  newURL (url a) = Some u ->
  hostname u = "en.wikipedia.org" ->
  url a = "https://" ++ hostname u ++ pathname u ->
  parseWikiUrl newURL Platform.decodeURIComponent (url a) = Some (title a).
Proof.
  intros Hfetch Hne Hu Hhost Hsplit.
  assert (Hurl : url a = "https://en.wikipedia.org/wiki/" ++ encodeURIComponent (title a)).
  { unfold fetchWikiArticle in Hfetch.
    destruct (axios_get _ _) as [pages|]; [|discriminate].
    destruct (nth_error (objectKeys pages) 0) as [pageId|]; [|discriminate].
    destruct (objectGet pages pageId) as [page|]; [|discriminate].
    destruct (_ || _); [discriminate|]. now inversion Hfetch. }
  assert (Hpath : pathname u = "/wiki/" ++ encodeURIComponent (title a)).
  { rewrite Hurl, Hhost in Hsplit.
    change ("https://en.wikipedia.org/wiki/" ++ encodeURIComponent (title a))
      with ("https://" ++ "en.wikipedia.org" ++ "/wiki/" ++ encodeURIComponent (title a))
      in Hsplit.
    apply append_cancel_l in Hsplit. apply append_cancel_l in Hsplit. now symmetry. }
  rewrite (parseWikiUrl_wiki_path newURL Platform.decodeURIComponent (url a) u "en"
             (encodeURIComponent (title a)) Hu).
  - apply decode_encode.
  - now rewrite Hhost.
  - exact Hpath.
  - now apply encode_nonempty.
  - apply encode_no_slash.
Qed.

(** X20: an article is returned only for a response whose first page is
    neither flagged missing nor keyed [-1], and its title and extract are
    those of that page: the other pages of the response play no part, and a
    response without pages yields no article. *)
Theorem fetchWikiArticle_returned newURL decode axios_get
    (titleOrUrl : string) (a : Article) :
  fetchWikiArticle newURL decode axios_get titleOrUrl = Returned a ->
  exists pageId page rest,
    axios_get "https://en.wikipedia.org/w/api.php" (fetchParams newURL decode titleOrUrl)
      = Some ((pageId, page) :: rest)
    /\ toBoolean (page_missing page) = false
    /\ pageId <> "-1"
    /\ title a = page_title page
    /\ extract a = page_extract page
    /\ url a = "https://en.wikipedia.org/wiki/" ++ encodeURIComponent (page_title page).
Proof.
  unfold fetchWikiArticle. intros H.
  destruct (axios_get _ _) as [[|[pageId page] rest]|]; try discriminate.
  cbn [objectKeys map fst nth_error objectGet] in H. rewrite String.eqb_refl in H.
  destruct (toBoolean (page_missing page)) eqn:Hm; [discriminate|].
  destruct (String.eqb_spec pageId "-1") as [-> | Hid]; [discriminate|].
  cbn [orb] in H. inversion H; subst a; clear H. cbn [title extract url].
  exists pageId, page, rest. repeat split; auto.
Qed.

(** * Properties of the quiz session *)

Lemma arrayGet_middle {A : Type} (done : list A) (x : A) (todo : list A) :
  arrayGet (done ++ x :: todo)%list (Z.of_nat (List.length done)) = Some x.
Proof.
  unfold arrayGet.
  destruct (Z.ltb_spec (Z.of_nat (List.length done)) 0) as [H | _]; [lia|].
  rewrite Nat2Z.id. rewrite List.nth_error_app2 by lia.
  now rewrite Nat.sub_diag.
Qed.

(** Answering in order the questions still to come, from a state where no
    option is selected, ends on the result screen with everything
    accounted for. *)
Lemma play_from : forall answers todo done (st : View.Session),
  View.quiz st = (done ++ todo)%list ->
  View.currentIndex st = Z.of_nat (List.length done) ->
  List.length answers = List.length todo ->
  todo <> [] ->
  truthy (View.selectedOption st) = false ->
  exists st' older now,
    View.play answers st = Some st'
    /\ In now (map fst answers)
    /\ View.showResult st' = true
    /\ View.inputUrl st' = EmptyString
    /\ View.quiz st' = View.quiz st
    /\ View.score st' = (View.score st + View.correctCount todo answers)%Z
    /\ View.currentResults st'
       = (View.currentResults st ++ View.resultsOf todo answers)%list
    /\ View.history st'
       = {| App.url := View.inputUrl st;
            App.topic := View.articleTitle st;
            App.score := View.score st';
            App.total := Z.of_nat (List.length (View.quiz st));
            App.date := now;
            App.results := View.currentResults st' |} :: older
    /\ View.localStorage st' = Some (View.history st').
Proof.
  induction answers as [|[now chosen] answers IH]; intros todo done st Hquiz Hidx Hlen Hne Hsel.
  - destruct todo; [congruence | discriminate].
  - destruct todo as [|q todo]; [congruence|]. clear Hne.
    assert (Hget : arrayGet (View.quiz st) (View.currentIndex st) = Some q)
      by (rewrite Hquiz, Hidx; apply arrayGet_middle).
    assert (Hqlen : Z.of_nat (List.length (View.quiz st))
                    = (Z.of_nat (List.length done) + 1 + Z.of_nat (List.length todo))%Z)
      by (rewrite Hquiz, List.length_app; cbn [List.length]; lia).
    cbn [View.play]. unfold View.answerQuestion, View.handleAnswer.
    rewrite Hsel, Hget.
    set (correct := String.eqb chosen (answer q)).
    set (result := {| App.result_question := question q;
                      App.result_answer := answer q;
                      App.selected := chosen;
                      App.isCorrect := correct |}).
    unfold View.afterAnswer.
    cbn [View.loading View.inputUrl View.quiz View.currentIndex View.score
         View.showResult View.selectedOption View.isCorrect View.history
         View.currentResults View.articleTitle View.lastScoreForUrl View.localStorage].
    destruct (Z.ltb_spec (View.currentIndex st)
                (Z.of_nat (List.length (View.quiz st)) - 1)) as [Hmore | Hlast].
    + (* a question follows *)
      destruct todo as [|q' todo]; [cbn [List.length] in Hqlen; lia|].
      match goal with
      | |- context [View.play answers ?s2] => set (st2 := s2)
      end.
      destruct (IH (q' :: todo) (done ++ [q])%list st2) as (st' & older & now' & Hplay & Hnow & H).
      * subst st2. cbn [View.quiz]. rewrite Hquiz, <- List.app_assoc. reflexivity.
      * subst st2. cbn [View.currentIndex]. rewrite Hidx, List.length_app. cbn [List.length]. lia.
      * cbn [List.length] in Hlen |- *. lia.
      * discriminate.
      * reflexivity.
      * exists st', older, now'. split; [exact Hplay|].
        split; [right; exact Hnow|].
        subst st2.
        cbn [View.quiz View.score View.currentResults View.inputUrl
             View.articleTitle] in H.
        destruct H as (H1 & H2 & H3 & H4 & H5 & H6 & H7).
        change (View.correctCount (q :: q' :: todo) ((now, chosen) :: answers))
          with ((if correct then 1 else 0) + View.correctCount (q' :: todo) answers)%Z.
        change (View.resultsOf (q :: q' :: todo) ((now, chosen) :: answers))
          with (result :: View.resultsOf (q' :: todo) answers).
        repeat split; auto.
        all: try (rewrite H4; destruct correct; lia).
        all: try (rewrite H5, <- List.app_assoc; reflexivity).
        all: rewrite H6, H3; reflexivity.
    + (* the last question *)
      destruct todo as [|q' todo]; [|cbn [List.length] in Hqlen; lia].
      destruct answers; [|discriminate].
      cbn [View.play App.isCorrect result].
      unfold App.saveToHistory. cbn [App.history App.persisted].
      rewrite newHistoryOf_head.
      eexists. eexists. exists now.
      split; [reflexivity|].
      cbn [View.showResult View.inputUrl View.quiz View.score View.currentResults
           View.history View.localStorage View.correctCount View.resultsOf map fst].
      fold correct. fold result.
      assert (Hscore : (View.score st + (if correct then 1 else 0)
                        = if correct then View.score st + 1 else View.score st)%Z)
        by (destruct correct; lia).
      rewrite Hscore.
      repeat split; try reflexivity.
      * now left.
      * destruct correct; lia.
Qed.

Lemma correctCount_bounds : forall qs answers,
  (0 <= View.correctCount qs answers <= Z.of_nat (List.length qs))%Z.
Proof.
  induction qs as [|q qs IH]; intros answers; [cbn; lia|].
  destruct answers as [|[now chosen] answers]; [cbn [View.correctCount]; lia|].
  cbn [View.correctCount List.length]. specialize (IH answers).
  destruct (String.eqb chosen (answer q)); lia.
Qed.

(** X21: when [startQuiz] settles on a non-empty input, the session is
    fresh (first question, score 0, no answer recorded, nothing selected,
    result screen off, not loading), the history and the input are
    untouched, the quiz has at most 5 questions, each with 4 options that
    hold its answer, and the alert is shown exactly when the quiz is
    empty. *)
Theorem startQuiz_outcome newURL decode axios_get (random : nat -> Z) (fuel : nat)
    (url : string) (st st' : View.Session) (alerted : bool) :
  url <> EmptyString ->
  View.startQuiz newURL decode axios_get random fuel url st = Some (st', alerted) ->
  View.loading st' = false
  /\ View.currentIndex st' = 0%Z
  /\ View.score st' = 0%Z
  /\ View.currentResults st' = []
  /\ View.selectedOption st' = None
  /\ View.showResult st' = false
  /\ View.history st' = View.history st
  /\ View.inputUrl st' = View.inputUrl st
  /\ List.length (View.quiz st') <= 5
  /\ (alerted = true <-> View.quiz st' = [])
  /\ (forall q, In q (View.quiz st') ->
        List.length (options q) = 4 /\ In (answer q) (options q)).
Proof.
  intros Hne H. unfold View.startQuiz in H.
  rewrite (truthy_Some_nonempty _ Hne) in H. cbn [negb] in H.
  destruct (fetchWikiArticle newURL decode axios_get url) as [article | e].
  - destruct (run (generateQuizFromExtract random fuel (title article) (extract article)))
      as [generatedQuiz|] eqn:Hrun; [|discriminate].
    destruct (Nat.eqb_spec (List.length generatedQuiz) 0) as [Hzero | Hpos];
      inversion H; subst st' alerted; clear H;
      cbn [View.loading View.currentIndex View.score View.currentResults
           View.selectedOption View.showResult View.history View.inputUrl View.quiz].
    + repeat split; auto; try (cbn; lia); try contradiction.
    + pose proof (run_generate_length random _ _ _ _ Hrun) as Hlen.
      repeat split; auto; try discriminate.
      * intros ->. now cbn in Hpos.
      * destruct (generateQuizFromExtract_sound random _ _ _ _ _ Hrun H) as (s & _ & Hp).
        destruct (producedFrom_options random _ _ _ _ _ Hp) as (padded & Hperm & Hl & _).
        now rewrite <- (Permutation_length Hperm).
      * destruct (generateQuizFromExtract_sound random _ _ _ _ _ Hrun H) as (s & _ & Hp).
        destruct (producedFrom_options random _ _ _ _ _ Hp) as (padded & Hperm & _ & _ & Hin).
        now apply (Permutation_in _ Hperm).
  - inversion H; subst st' alerted; clear H.
    cbn [View.loading View.currentIndex View.score View.currentResults
         View.selectedOption View.showResult View.history View.inputUrl View.quiz].
    repeat split; auto; try (cbn; lia); try contradiction.
Qed.

(** X22: from a fresh session with a quiz of n questions, n answers given
    in order lead to the result screen.  The score shown is the number of
    answers equal to the expected ones, between 0 and n; the record put
    first in the history and in [localStorage] carries that score, the
    total n, the URL and title of the session, and one result per
    question. *)
Theorem play_whole_quiz (answers : list (string * string)) (st : View.Session) :
  View.currentIndex st = 0%Z ->
  View.score st = 0%Z ->
  View.currentResults st = [] ->
  truthy (View.selectedOption st) = false ->
  View.quiz st <> [] ->
  List.length answers = List.length (View.quiz st) ->
  exists st' item older,
    View.play answers st = Some st'
    /\ View.showResult st' = true
    /\ View.score st' = View.correctCount (View.quiz st) answers
    /\ (0 <= View.score st' <= Z.of_nat (List.length (View.quiz st)))%Z
    /\ View.currentResults st' = View.resultsOf (View.quiz st) answers
    /\ List.length (View.currentResults st') = List.length (View.quiz st)
    /\ View.history st' = item :: older
    /\ View.localStorage st' = Some (item :: older)
    /\ App.url item = View.inputUrl st
    /\ App.topic item = View.articleTitle st
    /\ App.score item = View.score st'
    /\ App.total item = Z.of_nat (List.length (View.quiz st))
    /\ App.results item = View.currentResults st'.
Proof.
  intros Hidx Hscore Hres Hsel Hne Hlen.
  destruct (play_from answers (View.quiz st) [] st eq_refl Hidx Hlen Hne Hsel)
    as (st' & older & now & Hplay & _ & Hshow & _ & _ & Hs & Hr & Hh & Hl).
  rewrite Hscore in Hs. rewrite Hres in Hr. cbn [List.app] in Hr.
  exists st'. eexists. exists older. split; [exact Hplay|]. split; [exact Hshow|].
  split; [rewrite Hs; lia|].
  split; [rewrite Hs; pose proof (correctCount_bounds (View.quiz st) answers); lia|].
  split; [exact Hr|].
  split.
  { rewrite Hr. clear -Hlen. revert answers Hlen.
    induction (View.quiz st) as [|q qs IH]; intros answers Hlen; [reflexivity|].
    destruct answers as [|[now chosen] answers]; [discriminate|].
    cbn [View.resultsOf List.length]. f_equal. apply IH. now inversion Hlen. }
  split; [exact Hh|]. split; [rewrite Hl, Hh; reflexivity|].
  repeat split; reflexivity.
Qed.

(** X23: once the last answer is in, the input is empty, so the call
    [startQuiz(inputUrl)] of the button "Take Quiz Again" returns at once
    and leaves the session as it is. *)
Theorem retry_after_quiz_does_nothing (answers : list (string * string))
    (st : View.Session) :
  View.currentIndex st = 0%Z ->
  truthy (View.selectedOption st) = false ->
  View.quiz st <> [] ->
  List.length answers = List.length (View.quiz st) ->
  exists st',
    View.play answers st = Some st'
    /\ View.inputUrl st' = EmptyString
    /\ forall newURL decode axios_get random fuel,
         View.startQuiz newURL decode axios_get random fuel (View.inputUrl st') st'
         = Some (st', false).
Proof.
  intros Hidx Hsel Hne Hlen.
  destruct (play_from answers (View.quiz st) [] st eq_refl Hidx Hlen Hne Hsel)
    as (st' & older & now & Hplay & _ & _ & Hinput & _).
  exists st'. split; [exact Hplay|]. split; [exact Hinput|].
  intros. rewrite Hinput. reflexivity.
Qed.

(** ** How many questions *)

Lemma filter_length_perm {A : Type} (f : A -> bool) (l l' : list A) :
  Permutation l l' -> List.length (filter f l) = List.length (filter f l').
Proof.
  induction 1 as [|x l l' _ IH|x y l|l l' l'' _ IH1 _ IH2]; cbn [filter].
  - reflexivity.
  - destruct (f x); cbn [List.length]; now rewrite IH.
  - destruct (f x), (f y); reflexivity.
  - now rewrite IH1.
Qed.

Section QuestionCount.

Variable random : nat -> Z.

Lemma forSentences_count fuel title extract pool : forall quiz k quiz' k',
  forSentences random fuel title extract pool quiz k = Some (quiz', k') ->
  List.length quiz <= 5 ->
  List.length quiz'
  = Nat.min 5 (List.length quiz
               + List.length
                   (filter (fun sentence =>
                              0 <? List.length (targetWordsOf title (trim sentence)))
                           pool)).
Proof.
  induction pool as [|sentence pool IH]; intros quiz k quiz' k' H Hlen;
    cbn [forSentences filter] in H |- *.
  - gen_inv H. cbn [List.length]. lia.
  - destruct (Nat.leb_spec 5 (List.length quiz)); [gen_inv H; lia|].
    destruct (0 <? List.length (targetWordsOf title (trim sentence))).
    + gen_inv H. gen_inv H. gen_inv H.
      apply IH in H; [|rewrite List.length_app; cbn; lia].
      rewrite H, List.length_app. cbn [List.length]. lia.
    + now apply IH in H.
Qed.

End QuestionCount.

(** X24: the number of questions returned is the number of sentences of
    the pool that have a candidate word, up to 5. *)
Theorem generateQuizFromExtract_question_count (random : nat -> Z) (fuel : nat)
    (title extract : string) (quiz : list WikiQuizQuestion) :
  run (generateQuizFromExtract random fuel title extract) = Some quiz ->
  List.length quiz
  = Nat.min 5 (List.length
                 (filter (fun sentence =>
                            0 <? List.length (targetWordsOf title (trim sentence)))
                         (poolOf extract))).
Proof.
  unfold run, generateQuizFromExtract. intros H.
  destruct (bind _ _ 0) as [[quiz0 k0]|] eqn:Hb; [|discriminate].
  inversion H; subst quiz0; clear H. gen_inv Hb.
  apply forSentences_count in Hb; [|cbn; lia].
  apply sortRandom_perm in Hm.
  now rewrite Hb, (filter_length_perm _ _ _ Hm).
Qed.

(** * Instances of the properties above *)

Lemma saveToHistory_replaces_witness :
  App.persisted (App.saveToHistory turingRecord (App.mkStore [eiffelRecord; turingRecord] None))
    = Some (turingRecord
            :: filter (fun h => negb (App.sameRecord turingRecord h))
                 (App.history (App.mkStore [eiffelRecord; turingRecord] None)))
  /\ (~ In (App.recordKey turingRecord)
          (map App.recordKey (App.history (App.mkStore [eiffelRecord; turingRecord] None))) ->
      App.persisted (App.saveToHistory turingRecord
                       (App.mkStore [eiffelRecord; turingRecord] None))
      = Some (turingRecord :: App.history (App.mkStore [eiffelRecord; turingRecord] None))).
Proof.
  apply (saveToHistory_replaces turingRecord (App.mkStore [eiffelRecord; turingRecord] None)).
  simpl. repeat constructor; simpl; intuition discriminate.
Defined.

Lemma lastScore_after_save_witness :
  View.lastScoreEffect (App.url eiffelRecord)
    (View.history (View.saveToHistory eiffelRecord emptySession))
  = Some (App.score eiffelRecord).
Proof. apply (lastScore_after_save eiffelRecord emptySession). simpl. discriminate. Defined.

Lemma lastScore_empty_url_entry_witness :
  exists shown,
    View.lastScoreEffect "Alan Turing" [turingRecord; clearedInputRecord] = Some shown.
Proof.
  apply (lastScore_empty_url_entry [turingRecord; clearedInputRecord] clearedInputRecord
           "Alan Turing").
  - simpl. right. left. reflexivity.
  - reflexivity.
  - discriminate.
Defined.

Lemma generateQuizFromExtract_at_most_5_witness : List.length eiffelQuiz <= 5.
Proof.
  apply (generateQuizFromExtract_at_most_5 demoRandom 100 "Eiffel Tower" eiffelExtract eiffelQuiz).
  vm_compute. reflexivity.
Defined.

Lemma generateQuizFromExtract_short_lines_witness :
  run (generateQuizFromExtract demoRandom 100 "Eiffel Tower"
         "The Eiffel Tower is a wrought-iron lattice tower in Paris.") = Some [].
Proof.
  apply (generateQuizFromExtract_short_lines demoRandom 100 "Eiffel Tower"
           "The Eiffel Tower is a wrought-iron lattice tower in Paris.").
  intros p Hp. simpl in Hp. destruct Hp as [<- | []]. vm_compute. lia.
Defined.

Lemma generateQuizFromExtract_answer_in_extract_witness :
  includes eiffelExtract (answer eiffelQuestion) = true
  /\ every (fun c => negb (isSpace c)) (answer eiffelQuestion) = true
  /\ every (fun c => negb (isNewline c)) (answer eiffelQuestion) = true
  /\ every (fun c => negb (isSentenceEnd c)) (answer eiffelQuestion) = true.
Proof.
  apply (generateQuizFromExtract_answer_in_extract demoRandom 100 "Eiffel Tower"
           eiffelExtract eiffelQuiz eiffelQuestion).
  - vm_compute. reflexivity.
  - simpl. left. reflexivity.
Defined.

Lemma generateQuizFromExtract_question_length_witness :
  (exists sentence, In sentence (poolOf eiffelExtract)
                    /\ length (question eiffelQuestion) + length (answer eiffelQuestion)
                       = length (trim sentence) + 7)
  /\ 57 < length (question eiffelQuestion) + length (answer eiffelQuestion) < 207
  /\ length (question eiffelQuestion) < 202.
Proof.
  apply (generateQuizFromExtract_question_length demoRandom 100 "Eiffel Tower"
           eiffelExtract eiffelQuiz eiffelQuestion).
  - vm_compute. reflexivity.
  - simpl. left. reflexivity.
Defined.

Lemma generateQuizFromExtract_placeholders_witness :
  Permutation [answer underscoreQuestion; "Option 1"; "Option 2"; "Option 3"]
    (options underscoreQuestion).
Proof.
  apply (generateQuizFromExtract_placeholders demoRandom 100 "Quiz" underscoreExtract
           [underscoreQuestion] underscoreQuestion).
  - vm_compute. reflexivity.
  - simpl. left. reflexivity.
  - vm_compute. reflexivity.
Defined.

Lemma generateQuizFromExtract_distractors_witness :
  exists w1 w2 w3,
    Permutation [answer eiffelQuestion; stripTrailingPunct w1; stripTrailingPunct w2;
                 stripTrailingPunct w3] (options eiffelQuestion)
    /\ Forall (fun w => In w (splitWhiteSpace eiffelExtract)
                        /\ 5 < length w
                        /\ toLowerCase w <> toLowerCase (answer eiffelQuestion)) [w1; w2; w3].
Proof.
  apply (generateQuizFromExtract_distractors demoRandom 100 "Eiffel Tower"
           eiffelExtract eiffelQuiz eiffelQuestion).
  - vm_compute. reflexivity.
  - simpl. left. reflexivity.
  - vm_compute. discriminate.
Defined.

Lemma generateQuizFromExtract_option_length_witness : 5 <= length "engineer".
Proof.
  apply (generateQuizFromExtract_option_length demoRandom 100 "Eiffel Tower"
           eiffelExtract eiffelQuiz eiffelQuestion "engineer").
  - vm_compute. reflexivity.
  - simpl. left. reflexivity.
  - simpl. right. right. left. reflexivity.
Defined.

Lemma generateQuizFromExtract_answer_choice_witness :
  let titleWord := hd EmptyString (split isSpace (toLowerCase "Eiffel Tower")) in
  exists sentence w,
    In sentence (poolOf eiffelExtract)
    /\ In w (split isSpace (trim sentence))
    /\ answer eiffelQuestion = stripTrailingPunct w
    /\ ((testLeadingUpper w = true
         /\ 5 < length w
         /\ includes (toLowerCase w) titleWord = false)
        \/ (6 < length w
            /\ forall w', In w' (split isSpace (trim sentence)) ->
                 (5 <? length w') && negb (includes (toLowerCase w') titleWord)
                 && testLeadingUpper w' = false)).
Proof.
  apply (generateQuizFromExtract_answer_choice demoRandom 100 "Eiffel Tower"
           eiffelExtract eiffelQuiz eiffelQuestion).
  - vm_compute. reflexivity.
  - simpl. left. reflexivity.
Defined.

Lemma generateQuizFromExtract_empty_title_witness :
  6 <= length (answer wroughtIronQuestion).
Proof.
  apply (generateQuizFromExtract_empty_title demoRandom 100 EmptyString eiffelExtract
           [wroughtIronQuestion; gustaveQuestion; locallyQuestion] wroughtIronQuestion).
  - left. reflexivity.
  - vm_compute. reflexivity.
  - simpl. left. reflexivity.
Defined.

Lemma generateQuizFromExtract_title_first_word_witness :
  run (generateQuizFromExtract demoRandom 100 "Eiffel Tower" eiffelExtract)
  = run (generateQuizFromExtract demoRandom 100 "EIFFEL bridge" eiffelExtract).
Proof.
  apply (generateQuizFromExtract_title_first_word demoRandom 100 "Eiffel Tower"
           "EIFFEL bridge" eiffelExtract).
  vm_compute. reflexivity.
Defined.

Lemma parseWikiUrl_article_title_witness :
  parseWikiUrl Platform.newURL Platform.decodeURIComponent
    "https://en.wikipedia.org/wiki/Caf%C3%A9?title=Tea"
  = Platform.decodeURIComponent "Caf%C3%A9".
Proof.
  apply (parseWikiUrl_article_title Platform.newURL Platform.decodeURIComponent
           "https://en.wikipedia.org/wiki/Caf%C3%A9?title=Tea"
           (mkURL "en.wikipedia.org" "/wiki/Caf%C3%A9" [("title", "Tea")])
           "en" "Caf%C3%A9").
  - vm_compute. reflexivity.
  - reflexivity.
  - reflexivity.
  - discriminate.
  - vm_compute. reflexivity.
Defined.

Lemma fetchWikiArticle_url_round_trip_witness :
  parseWikiUrl Platform.newURL Platform.decodeURIComponent (url turingArticle)
  = Some (title turingArticle).
Proof.
  apply (fetchWikiArticle_url_round_trip Platform.newURL axios_found
           "https://en.wikipedia.org/wiki/Alan_Turing" turingArticle
           (mkURL "en.wikipedia.org" "/wiki/Alan%20Turing" [])).
  - vm_compute. reflexivity.
  - simpl. discriminate.
  - vm_compute. reflexivity.
  - reflexivity.
  - reflexivity.
Defined.

Lemma fetchWikiArticle_returned_witness :
  exists pageId page rest,
    axios_found "https://en.wikipedia.org/w/api.php"
      (fetchParams Platform.newURL Platform.decodeURIComponent
         "https://en.wikipedia.org/wiki/Alan_Turing")
      = Some ((pageId, page) :: rest)
    /\ toBoolean (page_missing page) = false
    /\ pageId <> "-1"
    /\ title turingArticle = page_title page
    /\ extract turingArticle = page_extract page
    /\ url turingArticle
       = "https://en.wikipedia.org/wiki/" ++ encodeURIComponent (page_title page).
Proof.
  apply (fetchWikiArticle_returned Platform.newURL Platform.decodeURIComponent axios_found
           "https://en.wikipedia.org/wiki/Alan_Turing" turingArticle).
  vm_compute. reflexivity.
Defined.

Lemma startQuiz_outcome_witness :
  View.loading eiffelSession = false
  /\ View.currentIndex eiffelSession = 0%Z
  /\ View.score eiffelSession = 0%Z
  /\ View.currentResults eiffelSession = []
  /\ View.selectedOption eiffelSession = None
  /\ View.showResult eiffelSession = false
  /\ View.history eiffelSession = View.history emptySession
  /\ View.inputUrl eiffelSession = View.inputUrl emptySession
  /\ List.length (View.quiz eiffelSession) <= 5
  /\ (false = true <-> View.quiz eiffelSession = [])
  /\ (forall q, In q (View.quiz eiffelSession) ->
        List.length (options q) = 4 /\ In (answer q) (options q)).
Proof.
  apply (startQuiz_outcome Platform.newURL Platform.decodeURIComponent axios_eiffel
           demoRandom 100 "https://en.wikipedia.org/wiki/Eiffel_Tower"
           emptySession eiffelSession false).
  - discriminate.
  - vm_compute. reflexivity.
Defined.

Lemma play_whole_quiz_witness :
  exists st' item older,
    View.play eiffelAnswers eiffelSession = Some st'
    /\ View.showResult st' = true
    /\ View.score st' = View.correctCount (View.quiz eiffelSession) eiffelAnswers
    /\ (0 <= View.score st' <= Z.of_nat (List.length (View.quiz eiffelSession)))%Z
    /\ View.currentResults st' = View.resultsOf (View.quiz eiffelSession) eiffelAnswers
    /\ List.length (View.currentResults st') = List.length (View.quiz eiffelSession)
    /\ View.history st' = item :: older
    /\ View.localStorage st' = Some (item :: older)
    /\ App.url item = View.inputUrl eiffelSession
    /\ App.topic item = View.articleTitle eiffelSession
    /\ App.score item = View.score st'
    /\ App.total item = Z.of_nat (List.length (View.quiz eiffelSession))
    /\ App.results item = View.currentResults st'.
Proof.
  apply (play_whole_quiz eiffelAnswers eiffelSession).
  - reflexivity.
  - reflexivity.
  - reflexivity.
  - reflexivity.
  - simpl. discriminate.
  - reflexivity.
Defined.

Lemma retry_after_quiz_does_nothing_witness :
  exists st',
    View.play eiffelAnswers eiffelSession = Some st'
    /\ View.inputUrl st' = EmptyString
    /\ forall newURL decode axios_get random fuel,
         View.startQuiz newURL decode axios_get random fuel (View.inputUrl st') st'
         = Some (st', false).
Proof.
  apply (retry_after_quiz_does_nothing eiffelAnswers eiffelSession).
  - reflexivity.
  - reflexivity.
  - simpl. discriminate.
  - reflexivity.
Defined.

(** The session above, played: two answers of three are right. *)
Example eiffel_play_score :
  option_map View.score (View.play eiffelAnswers eiffelSession) = Some 2%Z.
Proof. vm_compute. reflexivity. Qed.

Lemma generateQuizFromExtract_question_count_witness :
  List.length eiffelQuiz
  = Nat.min 5 (List.length
                 (filter (fun sentence =>
                            0 <? List.length (targetWordsOf "Eiffel Tower" (trim sentence)))
                         (poolOf eiffelExtract))).
Proof.
  apply (generateQuizFromExtract_question_count demoRandom 100 "Eiffel Tower"
           eiffelExtract eiffelQuiz).
  vm_compute. reflexivity.
Defined.
